(** * FollowerIndexForm: the state logic of the follower-index form

    A shallow embedding of
    [x-pack/plugins/cross_cluster_replication/public/app/components/
     follower_index_form/follower_index_form.js]:
    the two exported state transitions ([updateFields], [updateFormErrors]),
    the constructor, the event handlers of the component and
    [renderApiErrors], over a small model of JavaScript values and of
    React's batched [setState]. *)

From Stdlib Require Import ZArith NArith Ascii String.
From stdpp Require Import base option list gmap strings fin_maps.

Local Open Scope string_scope.
Local Open Scope Z_scope.
Local Open Scope list_scope.

(** ** JavaScript values *)

(** A JavaScript string is the sequence of its UTF-16 code units. *)
Definition code_unit := N.
Definition jsstring := list code_unit.

(** The code units of a literal written with 8-bit characters. *)
Definition str (s : string) : jsstring :=
  (λ a, N_of_ascii a) <$> list_ascii_of_string s.

(** Values: the primitives and plain objects (own enumerable properties
    only).  Numbers that occur in the form are integers (an HTTP status,
    counts typed into the advanced settings). *)
#[local] Unset Elimination Schemes.
Inductive value : Type :=
| VUndefined
| VNull
| VBool (b : bool)
| VNum (n : Z)
| VStr (s : jsstring)
| VObj (o : gmap string value).
#[local] Set Elimination Schemes.

Abbreviation obj := (gmap string value).

(** [o[k]]: reading a property that the object does not have gives
    [undefined]. *)
Definition get (o : obj) (k : string) : value := default VUndefined (o !! k).

(** [{...a, ...b}]: the properties of [b] override those of [a]. *)
Definition spread (a b : obj) : obj := b ∪ a.

(** Spreading [undefined] (or [null]) adds nothing. *)
Definition spread_opt (o : option obj) : obj := default ∅ o.

(** ToBoolean. *)
Definition truthy (v : value) : bool :=
  match v with
  | VUndefined | VNull => false
  | VBool b => b
  | VNum n => negb (n =? 0)
  | VStr s => match s with [] => false | _ => true end
  | VObj _ => true
  end.

(** [v.k] on a value that is neither [undefined] nor [null]: primitives
    have none of the properties read in this file. *)
Definition prop (v : value) (k : string) : value :=
  match v with
  | VObj o => get o k
  | _ => VUndefined
  end.

(** [v === undefined || v === null] *)
Definition is_nullish (v : value) : bool :=
  match v with
  | VUndefined | VNull => true
  | _ => false
  end.

(** [a === b].  Object identity is not tracked: an object operand makes
    the comparison false, which is what the code sees at each use (a
    field value against [''], a status against [404], a fetched record's
    name against the typed one). *)
Definition strict_equals (a b : value) : bool :=
  match a, b with
  | VUndefined, VUndefined => true
  | VNull, VNull => true
  | VBool x, VBool y => bool_decide (x = y)
  | VNum x, VNum y => bool_decide (x = y)
  | VStr x, VStr y => bool_decide (x = y)
  | _, _ => false
  end.

(** A parameter with a default value: the default is taken when the
    argument is [undefined]. *)
Definition with_default (argument default : value) : value :=
  match argument with
  | VUndefined => default
  | _ => argument
  end.

(** A React element [<type {...props} />]. *)
Definition element (type : string) (props : obj) : value :=
  VObj {[ "type" := VStr (str type); "props" := VObj props ]}.

(** *** String.prototype.trim *)

(** WhiteSpace and LineTerminator code units of ECMAScript. *)
Definition is_whitespace (c : code_unit) : bool :=
  match c with
  | 0x09 | 0x0A | 0x0B | 0x0C | 0x0D | 0x20 | 0xA0 | 0x1680
  | 0x2000 | 0x2001 | 0x2002 | 0x2003 | 0x2004 | 0x2005 | 0x2006
  | 0x2007 | 0x2008 | 0x2009 | 0x200A
  | 0x2028 | 0x2029 | 0x202F | 0x205F | 0x3000 | 0xFEFF => true
  | _ => false
  end%N.

Fixpoint trim_start (s : jsstring) : jsstring :=
  match s with
  | [] => []
  | c :: s' => if is_whitespace c then trim_start s' else s
  end.

Definition trim (s : jsstring) : jsstring :=
  reverse (trim_start (reverse (trim_start s))).

(** A string that consists only of white space (the empty string too). *)
Definition only_whitespace (s : jsstring) : Prop :=
  Forall (λ c, is_whitespace c = true) s.

(** ** Collaborators imported by the module *)

(** A validator is a pure function from the candidate value to
    [undefined]/[null] (no error) or an error descriptor. *)
Definition validator := value → value.

(** An entry of [advancedSettingsFields]; of its properties the form logic
    reads [field] and [validator] (which an entry may lack). *)
Record AdvancedSetting := {
  field : string;
  validator_of : option validator;
}.

(** What the module imports and does not define: the advanced-settings
    table, the two built-in validators, the routing and query-string
    helpers, the cluster-name resolver and the two message formatters. *)
Record Collaborators := {
  advancedSettingsFields : list AdvancedSetting;
  indexNameValidator : validator;
  leaderIndexValidator : validator;
  (** [routing.reactRouter.route.location.search] *)
  location_search : value;
  extractQueryParams : value → obj;
  getRemoteClusterName : value → value → value;
  (** [i18n.translate(id, { defaultMessage })] *)
  translate : string → obj → value;
  (** [intl.formatMessage(descriptor, values)] *)
  formatMessage : obj → option obj → value;
}.

(** ** Component state, props and effects *)

Record State := {
  isNew : bool;
  followerIndex : obj;
  fieldsErrors : obj;
  areErrorsVisible : bool;
  areAdvancedSettingsVisible : bool;
  isValidatingIndexName : bool;
  (** not set by the constructor: [undefined] until the first toggle *)
  cachedAdvancedSettings : option obj;
}.

(** The state has no [fields] entry: the constructor sets none and no
    update adds one, so [this.state.fields] is [undefined]. *)
Definition state_fields (s : State) : option obj := None.

(** Props that hold data; the two callback props appear as [call]s. *)
Record Props := {
  (** [PropTypes.object], optional: absent or a record *)
  props_followerIndex : option obj;
  apiError : value;
  apiStatus : value;
  remoteClusters : value;
}.

Record Instance := {
  props : Props;
  state : State;
}.

(** A partial state, as returned by an updater or passed to [setState];
    React merges it shallowly into the previous state. *)
Record Partial := {
  set_followerIndex : option obj;
  set_fieldsErrors : option obj;
  set_areErrorsVisible : option bool;
  set_areAdvancedSettingsVisible : option bool;
  set_isValidatingIndexName : option bool;
  set_cachedAdvancedSettings : option obj;
}.

Definition merge_state (s : State) (p : Partial) : State :=
  {| isNew := isNew s;
     followerIndex := default (followerIndex s) (set_followerIndex p);
     fieldsErrors := default (fieldsErrors s) (set_fieldsErrors p);
     areErrorsVisible := default (areErrorsVisible s) (set_areErrorsVisible p);
     areAdvancedSettingsVisible :=
       default (areAdvancedSettingsVisible s) (set_areAdvancedSettingsVisible p);
     isValidatingIndexName :=
       default (isValidatingIndexName s) (set_isValidatingIndexName p);
     cachedAdvancedSettings :=
       match set_cachedAdvancedSettings p with
       | Some c => Some c
       | None => cachedAdvancedSettings s
       end |}.

(** Calls that leave the component. *)
Inductive call : Type :=
| SaveFollowerIndex (name : value) (followerIndex : obj)
| ClearApiError
| FatalError (error : value) (title : value)
| ValidateIndexName (name : value).   (* the debounced check is invoked *)

(** What is passed to [this.setState]. *)
Inductive update : Type :=
| UpdateObject (p : Partial)
| UpdateFields (fields : obj)
| UpdateFormErrors (errors : obj)
| ToggleAdvancedSettingsUpdater.

Inductive effect : Type :=
| SetState (u : update)
| Call (c : call).

(** Handlers run to completion and leave a trace of effects. *)
Definition M (A : Type) : Type := (list effect * A)%type.

Definition ret {A} (a : A) : M A := ([], a).

Definition bind {A B} (m : M A) (k : A → M B) : M B :=
  let '(es, b) := k m.2 in (m.1 ++ es, b).

Definition setState (u : update) : M unit := ([SetState u], tt).
Definition invoke (c : call) : M unit := ([Call c], tt).
Definition when (b : bool) (m : M unit) : M unit := if b then m else ret tt.

Notation "m ;; k" := (bind m (λ _, k))
  (at level 100, k at level 200, right associativity).

Definition updates_of (es : list effect) : list update :=
  omap (λ e, match e with SetState u => Some u | Call _ => None end) es.

Definition calls_of (es : list effect) : list call :=
  omap (λ e, match e with Call c => Some c | SetState _ => None end) es.

(** How a handler ends: [name.trim()] on a truthy value that is not a
    string is the one place that can throw. *)
Inductive completion : Type :=
| Returned
| ThrewTypeError.

(** The object literals passed to [setState] or returned by updaters. *)
Definition patch_followerIndex (o : obj) : Partial :=
  {| set_followerIndex := Some o; set_fieldsErrors := None;
     set_areErrorsVisible := None; set_areAdvancedSettingsVisible := None;
     set_isValidatingIndexName := None; set_cachedAdvancedSettings := None |}.

Definition patch_fieldsErrors (o : obj) : Partial :=
  {| set_followerIndex := None; set_fieldsErrors := Some o;
     set_areErrorsVisible := None; set_areAdvancedSettingsVisible := None;
     set_isValidatingIndexName := None; set_cachedAdvancedSettings := None |}.

Definition patch_areErrorsVisible (b : bool) : Partial :=
  {| set_followerIndex := None; set_fieldsErrors := None;
     set_areErrorsVisible := Some b; set_areAdvancedSettingsVisible := None;
     set_isValidatingIndexName := None; set_cachedAdvancedSettings := None |}.

Definition patch_isValidatingIndexName (b : bool) : Partial :=
  {| set_followerIndex := None; set_fieldsErrors := None;
     set_areErrorsVisible := None; set_areAdvancedSettingsVisible := None;
     set_isValidatingIndexName := Some b; set_cachedAdvancedSettings := None |}.

Definition patch_advancedSettings (visible : bool) (cache : obj) : Partial :=
  {| set_followerIndex := None; set_fieldsErrors := None;
     set_areErrorsVisible := None; set_areAdvancedSettingsVisible := Some visible;
     set_isValidatingIndexName := None; set_cachedAdvancedSettings := Some cache |}.

(** ** The module *)

(** State transitions: fields update (ll. 64-69) *)
Definition updateFields (fields : obj) (s : State) : Partial :=
  patch_followerIndex (spread (followerIndex s) fields).

(** State transitions: errors update (ll. 74-79) *)
Definition updateFormErrors (errors : obj) (s : State) : Partial :=
  patch_fieldsErrors (spread (fieldsErrors s) errors).

Section FollowerIndexForm.
Context (ext : Collaborators).

(** Modelled from the spec: [emptyAdvancedSettings] is defined in
    advanced_settings_fields.js, which is not among the sources.  The
    spec has the advanced-setting fields "initialized to an empty
    sentinel value", and that sentinel is the [''] the toggle compares
    against (l. 222): every field of the table, set to ['']. *)
Definition emptyAdvancedSettings : obj :=
  list_to_map ((λ advancedSetting, (field advancedSetting, VStr [])) <$>
               advancedSettingsFields ext).

(** ll. 45-52: the own entries of the table.  The table is an object
    literal, so it inherits the members of [Object.prototype] as well;
    they are not entries of this map. *)
Definition fieldToValidatorMap : gmap string (option validator) :=
  foldl (λ map advancedSetting,
           <[field advancedSetting := validator_of advancedSetting]> map)
        {[ "name" := Some (indexNameValidator ext);
           "leaderIndex" := Some (leaderIndexValidator ext) ]}
        (advancedSettingsFields ext).

(** [fieldToValidatorMap[field]], as tested by [if (validator)], for a
    [field] that is an own entry of the table or is not the name of a
    member of [Object.prototype].  For such a name without an own entry the
    source finds the inherited member and calls it; the statements that
    depend on it exclude these names. *)
Definition validator_for (field : string) : option validator :=
  mjoin (fieldToValidatorMap !! field).

(** ll. 54-59; the parameter defaults to [''] when it is [undefined]. *)
Definition getEmptyFollowerIndex (remoteClusterName : value) : obj :=
  let remoteClusterName := with_default remoteClusterName (VStr []) in
  spread {[ "name" := VStr [];
            "remoteCluster" := remoteClusterName;
            "leaderIndex" := VStr [] ]}
         emptyAdvancedSettings.

(** ll. 135-147 *)
Definition getFieldsErrors (newFields : obj) : obj :=
  map_fold (λ field value errors,
              match validator_for field with
              | Some validator => <[field := validator value]> errors
              | None => errors
              end) ∅ newFields.

(** ll. 92-118 *)
Definition constructor (props : Props) : State :=
  let isNew := match props_followerIndex props with
               | None => true
               | Some _ => false
               end in
  let search := location_search ext in
  let queryParams := extractQueryParams ext search in
  let remoteClusterName :=
    getRemoteClusterName ext (remoteClusters props) (get queryParams "cluster") in
  let followerIndex :=
    if isNew then getEmptyFollowerIndex remoteClusterName
    else spread (getEmptyFollowerIndex VUndefined)
                (spread_opt (props_followerIndex props)) in
  let fieldsErrors := getFieldsErrors followerIndex in
  {| isNew := isNew;
     followerIndex := followerIndex;
     fieldsErrors := fieldsErrors;
     areErrorsVisible := false;
     areAdvancedSettingsVisible := if isNew then false else true;
     isValidatingIndexName := false;
     cachedAdvancedSettings := None |}.

(** ll. 120-133 *)
Definition onFieldsChange (this : Instance) (fields : obj) : M unit :=
  setState (UpdateFields fields) ;;
  let newFields := spread (spread_opt (state_fields (state this))) fields in
  setState (UpdateFormErrors (getFieldsErrors newFields)) ;;
  when (truthy (apiError (props this))) (invoke ClearApiError).

(** ll. 149-165 *)
Definition onIndexNameChange (this : Instance) (name : value) : M completion :=
  onFieldsChange this {[ "name" := name ]} ;;
  if negb (truthy name) then
    setState (UpdateObject (patch_isValidatingIndexName false)) ;;
    ret Returned
  else
    match name with
    | VStr s =>
        if negb (truthy (VStr (trim s))) then
          setState (UpdateObject (patch_isValidatingIndexName false)) ;;
          ret Returned
        else
          setState (UpdateObject (patch_isValidatingIndexName true)) ;;
          invoke (ValidateIndexName name) ;;
          ret Returned
    | _ => ret ThrewTypeError
    end.

(** How the promise of [loadIndices()] settles. *)
Inductive settled : Type :=
| Resolved (indices : list obj)
| Rejected (error : value).

Definition indexAlreadyExistError : value :=
  VObj {[ "message" :=
            element "FormattedMessage"
              {[ "id" := VStr (str "xpack.crossClusterReplication.followerIndexForm.indexAlreadyExistError");
                 "defaultMessage" := VStr (str "An index with the same name already exists.") ]};
          "alwaysVisible" := VBool true ]}.

Definition indexNameValidationFatalErrorTitle : value :=
  translate ext
    "xpack.crossClusterReplication.followerIndexForm.indexNameValidationFatalErrorTitle"
    {[ "defaultMessage" := VStr (str "Follower Index Forn index name validation") ]}.

(** ll. 167-204: the body that runs once [await loadIndices()] has
    settled. *)
Definition validateIndexName (this : Instance) (name : value) (r : settled)
  : M unit :=
  match r with
  | Resolved indices =>
      let doesExist :=
        existsb (λ index, strict_equals (get index "name") name) indices in
      when doesExist
        (let error := indexAlreadyExistError in
         setState (UpdateFormErrors {[ "name" := error ]})) ;;
      setState (UpdateObject (patch_isValidatingIndexName false))
  | Rejected error =>
      when (truthy error && truthy (prop error "data"))
        (setState (UpdateObject (patch_isValidatingIndexName false))) ;;
      invoke (FatalError error indexNameValidationFatalErrorTitle)
  end.

(** ll. 206-208 *)
Definition onClusterChange (this : Instance) (remoteCluster : value) : M unit :=
  onFieldsChange this {[ "remoteCluster" := remoteCluster ]}.

(** ll. 210-212 *)
Definition getFields (this : Instance) : obj := followerIndex (state this).

(** ll. 220-226: the cache built from the current [fields]. *)
Definition newCachedAdvancedSettings (fields : obj) : obj :=
  foldl (λ cache advancedSetting,
           let value := get fields (field advancedSetting) in
           if negb (strict_equals value (VStr []))
           then <[field advancedSetting := value]> cache
           else cache)
        ∅ (advancedSettingsFields ext).

(** ll. 215-242: the updater that [toggleAdvancedSettings] passes to
    [setState].  It reads [this] and calls [this.onFieldsChange]; the
    argument of the second call is only ever spread, and spreading the
    [undefined] of a cache that was never set is spreading [{}]. *)
Definition toggleAdvancedSettingsUpdater (this : Instance) (prev : State)
  : M Partial :=
  if areAdvancedSettingsVisible prev then
    let fields := getFields this in
    onFieldsChange this emptyAdvancedSettings ;;
    ret (patch_advancedSettings false (newCachedAdvancedSettings fields))
  else
    onFieldsChange this (spread_opt (cachedAdvancedSettings prev)) ;;
    ret (patch_advancedSettings true ∅).

(** ll. 214-243 *)
Definition toggleAdvancedSettings (this : Instance) : M unit :=
  setState ToggleAdvancedSettingsUpdater.

(** ll. 245-247 *)
Definition isFormValid (this : Instance) : bool :=
  forallb is_nullish (snd <$> map_to_list (fieldsErrors (state this))).

(** ll. 249-261 *)
Definition sendForm (this : Instance) : M unit :=
  let isFormValid := isFormValid this in
  setState (UpdateObject (patch_areErrorsVisible (negb isFormValid))) ;;
  if negb isFormValid then ret tt
  else
    let name := get (getFields this) "name" in
    let followerIndex := delete "name" (getFields this) in
    invoke (SaveFollowerIndex name followerIndex).

(** ll. 270-293 *)
Definition renderApiErrors (this : Instance) : value :=
  let apiError := apiError (props this) in
  if truthy apiError then
    let title :=
      formatMessage ext
        {[ "id" := VStr (str "xpack.crossClusterReplication.followerIndexForm.savingErrorTitle");
           "defaultMessage" := VStr (str "Error creating follower index") ]}
        None in
    let leaderIndex := get (followerIndex (state this)) "leaderIndex" in
    let error :=
      if strict_equals (prop apiError "status") (VNum 404) then
        VObj {[ "data" :=
          VObj {[ "message" :=
            formatMessage ext
              {[ "id" := VStr (str "xpack.crossClusterReplication.followerIndexForm.leaderIndexNotFoundError");
                 "defaultMessage" := VStr (str "The leader index '{leaderIndex}' you want to replicate from does not exist.") ]}
              (Some {[ "leaderIndex" := leaderIndex ]}) ]} ]}
      else apiError in
    element "SectionError" {[ "title" := title; "error" := error ]}
  else VNull.

(** ll. 407-409: the [onError] callback handed to the remote-cluster
    field. *)
Definition onRemoteClusterError (this : Instance) (error : value) : M unit :=
  setState (UpdateFormErrors {[ "remoteCluster" := error ]}).

(** ** React's handling of [setState] *)

(** An update applied to the previous state [prev] of the queue.  An
    updater function may have effects of its own (the toggle's has). *)
Definition run_update (this : Instance) (u : update) (prev : State) : M Partial :=
  match u with
  | UpdateObject p => ret p
  | UpdateFields fields => ret (updateFields fields prev)
  | UpdateFormErrors errors => ret (updateFormErrors errors prev)
  | ToggleAdvancedSettingsUpdater => toggleAdvancedSettingsUpdater this prev
  end.

(** The queue is processed in order; [this.state] stays the committed
    state meanwhile, and an update enqueued by an updater goes to the end
    of the queue. *)
Fixpoint process (fuel : nat) (this : Instance) (queue : list update)
    (prev : State) (log : list call) : list update * State * list call :=
  match fuel, queue with
  | S fuel', u :: queue' =>
      let '(es, p) := run_update this u prev in
      process fuel' this (queue' ++ updates_of es) (merge_state prev p)
              (log ++ calls_of es)
  | _, _ => (queue, prev, log)
  end.

(** Steps an update can cause: itself and what it enqueues. *)
Definition weight (u : update) : nat :=
  match u with
  | ToggleAdvancedSettingsUpdater => 3
  | _ => 1
  end.

Definition total_weight (queue : list update) : nat :=
  foldr (λ u n, weight u + n)%nat 0%nat queue.

Definition flush (this : Instance) (queue : list update)
  : list update * State * list call :=
  process (total_weight queue) this queue (state this) [].

(** An event: the handler runs, then React commits the batch. *)
Definition handle {A} (this : Instance) (handler : M A)
  : Instance * list call * A :=
  let '(_, s, log) := flush this (updates_of handler.1) in
  ({| props := props this; state := s |}, calls_of handler.1 ++ log, handler.2).

Definition after {A} (this : Instance) (handler : M A) : State :=
  state (handle this handler).1.1.

Definition calls_during {A} (this : Instance) (handler : M A) : list call :=
  (handle this handler).1.2.

Definition completion_of {A} (this : Instance) (handler : M A) : A :=
  (handle this handler).2.

End FollowerIndexForm.

(** ** Vocabulary of the statements *)

(** Every tracked field error is [undefined] or [null]. *)
Definition no_field_error (s : State) : Prop :=
  ∀ field error,
    fieldsErrors s !! field = Some error → error = VUndefined ∨ error = VNull.

(** The callback [saveFollowerIndex] is invoked. *)
Definition saves (calls : list call) : Prop :=
  ∃ name rest, SaveFollowerIndex name rest ∈ calls.

(** The instance once an event has been handled. *)
Definition instance_after {A} (ext : Collaborators) (this : Instance)
    (handler : M A) : Instance :=
  (handle ext this handler).1.1.

(** The instance after the advanced settings have been toggled once, and
    twice. *)
Definition hidden (ext : Collaborators) (this : Instance) : Instance :=
  instance_after ext this (toggleAdvancedSettings this).

Definition hide_then_show (ext : Collaborators) (this : Instance) : Instance :=
  instance_after ext (hidden ext this) (toggleAdvancedSettings (hidden ext this)).

(** ** The names that every object literal inherits

    The own property names of [Object.prototype].  An object literal such
    as [fieldToValidatorMap] answers a lookup of one of these names with the
    inherited member unless it has an own entry of that name. *)
Definition Object_prototype_names : list string :=
  [ "constructor"; "__defineGetter__"; "__defineSetter__"; "hasOwnProperty";
    "__lookupGetter__"; "__lookupSetter__"; "isPrototypeOf";
    "propertyIsEnumerable"; "toString"; "valueOf"; "__proto__";
    "toLocaleString" ].

(** No key of the object is one of those names: the lookup of each of its
    keys in an object literal is a lookup among the literal's own
    entries. *)
Definition plain_keys (o : obj) : Prop :=
  Forall (λ k, o !! k = None) Object_prototype_names.

(** ** The defaults and the table, as the spec has them *)

(** The empty defaults: each advanced-setting field holds the empty
    sentinel; [name] and [leaderIndex] are empty and [remoteCluster] is the
    given cluster name, unless an advanced setting has the field. *)
Definition default_field (ext : Collaborators) (remoteClusterName : value)
    (k : string) : option value :=
  if decide (k ∈ field <$> advancedSettingsFields ext) then Some (VStr [])
  else if decide (k = "name") then Some (VStr [])
  else if decide (k = "remoteCluster") then Some remoteClusterName
  else if decide (k = "leaderIndex") then Some (VStr [])
  else None.

(** What the advanced-settings definitions contribute to the table for a
    field: the validator (or lack of one) of the last definition of that
    field. *)
Fixpoint contributed_validator (l : list AdvancedSetting) (k : string)
    : option (option validator) :=
  match l with
  | [] => None
  | advancedSetting :: l' =>
      match contributed_validator l' k with
      | Some validator => Some validator
      | None =>
          if decide (field advancedSetting = k)
          then Some (validator_of advancedSetting)
          else None
      end
  end.

(** The fixed field-to-validator table: what the advanced-settings
    definitions contribute, combined with the two built-in entries for
    [name] and [leaderIndex]. *)
Definition registered_validator (ext : Collaborators) (k : string)
    : option validator :=
  match contributed_validator (advancedSettingsFields ext) k with
  | Some validator => validator
  | None =>
      if decide (k = "name") then Some (indexNameValidator ext)
      else if decide (k = "leaderIndex") then Some (leaderIndexValidator ext)
      else None
  end.

(** ** Rendering the warning and the actions

    What [renderForm] needs beside the state: the constant
    [API_STATUS.SAVING] (imported) and the function objects [this.sendForm]
    and [this.cancelForm] that the buttons get as [onClick], opaque
    here. *)
Record Rendering := {
  API_STATUS_SAVING : value;
  this_sendForm : value;
  this_cancelForm : value;
}.

(** [<FormattedMessage id=... defaultMessage=... />] *)
Definition formattedMessage (id defaultMessage : string) : value :=
  element "FormattedMessage"
    {[ "id" := VStr (str id); "defaultMessage" := VStr (str defaultMessage) ]}.

(** ll. 544-569.  Several children are an array, an object with the own
    properties ["0"], ["1"], ...; a single child is the child itself. *)
Definition renderFormErrorWarning (this : Instance) : value :=
  let areErrorsVisible := areErrorsVisible (state this) in
  let isFormValid := isFormValid this in
  if negb areErrorsVisible || isFormValid then VNull
  else
    element "Fragment"
      {[ "children" := VObj
           {[ "0" := element "EuiSpacer" {[ "size" := VStr (str "m") ]};
              "1" := element "EuiCallOut"
                       {[ "title" :=
                            formattedMessage
                              "xpack.crossClusterReplication.followerIndexForm.validationErrorTitle"
                              "Fix errors before continuing.";
                          "color" := VStr (str "danger");
                          "iconType" := VStr (str "cross") ]};
              "2" := element "EuiSpacer" {[ "size" := VStr (str "l") ]} ]} ]}.

(** ll. 574-629 *)
Definition renderActions (r : Rendering) (this : Instance) : value :=
  let apiStatus := apiStatus (props this) in
  let areErrorsVisible := areErrorsVisible (state this) in
  if strict_equals apiStatus (API_STATUS_SAVING r) then
    element "EuiFlexGroup"
      {[ "justifyContent" := VStr (str "flexStart");
         "gutterSize" := VStr (str "m");
         "children" := VObj
           {[ "0" := element "EuiFlexItem"
                {[ "grow" := VBool false;
                   "children" :=
                     element "EuiLoadingSpinner" {[ "size" := VStr (str "l") ]} ]};
              "1" := element "EuiFlexItem"
                {[ "grow" := VBool false;
                   "children" :=
                     element "EuiText"
                       {[ "children" :=
                            formattedMessage
                              "xpack.crossClusterReplication.followerIndexForm.actions.savingText"
                              "Saving" ]} ]} ]} ]}
  else
    let isSaveDisabled := areErrorsVisible && negb (isFormValid this) in
    element "EuiFlexGroup"
      {[ "gutterSize" := VStr (str "m");
         "alignItems" := VStr (str "center");
         "children" := VObj
           {[ "0" := element "EuiFlexItem"
                {[ "grow" := VBool false;
                   "children" :=
                     element "EuiButton"
                       {[ "color" := VStr (str "secondary");
                          "iconType" := VStr (str "check");
                          "onClick" := this_sendForm r;
                          "fill" := VBool true;
                          "disabled" := VBool isSaveDisabled;
                          "children" :=
                            formattedMessage
                              "xpack.crossClusterReplication.followerIndexForm.saveButtonLabel"
                              "Save" ]} ]};
              "1" := element "EuiFlexItem"
                {[ "grow" := VBool false;
                   "children" :=
                     element "EuiButtonEmpty"
                       {[ "color" := VStr (str "primary");
                          "onClick" := this_cancelForm r;
                          "children" :=
                            formattedMessage
                              "xpack.crossClusterReplication.followerIndexForm.cancelButtonLabel"
                              "Cancel" ]} ]} ]} ]}.

(** ll. 647-658 *)
Definition renderLoading (r : Rendering) (this : Instance) : value :=
  let apiStatus := apiStatus (props this) in
  if strict_equals apiStatus (API_STATUS_SAVING r) then
    element "EuiOverlayMask"
      {[ "children" := element "EuiLoadingKibana" {[ "size" := VStr (str "xl") ]} ]}
  else VNull.

(** The child of the [i]-th item of a rendered flex group. *)
Definition item_child (group : value) (i : string) : value :=
  prop (prop (prop (prop (prop group "props") "children") i) "props") "children".

(** ** The life of a form

    What can happen to a mounted form: the callbacks that [renderForm]
    hands to its fields and buttons (ll. 353, 406-409, 449, 498, 530,
    605), the settling of a name check, and a re-render with new props
    (the component keeps its state: it derives none from props after the
    constructor). *)
Inductive event : Type :=
| FieldsChange (fields : obj)
| IndexNameChange (name : value)
| IndexNameChecked (name : value) (r : settled)
| ClusterChange (remoteCluster : value)
| RemoteClusterError (error : value)
| ToggleAdvancedSettings
| SendForm
| ReceiveProps (p : Props).

Definition mount (ext : Collaborators) (p : Props) : Instance :=
  {| props := p; state := constructor ext p |}.

Definition step (ext : Collaborators) (this : Instance) (e : event) : Instance :=
  match e with
  | FieldsChange fields => instance_after ext this (onFieldsChange ext this fields)
  | IndexNameChange name => instance_after ext this (onIndexNameChange ext this name)
  | IndexNameChecked name r =>
      instance_after ext this (validateIndexName ext this name r)
  | ClusterChange remoteCluster =>
      instance_after ext this (onClusterChange ext this remoteCluster)
  | RemoteClusterError error =>
      instance_after ext this (onRemoteClusterError this error)
  | ToggleAdvancedSettings => instance_after ext this (toggleAdvancedSettings this)
  | SendForm => instance_after ext this (sendForm this)
  | ReceiveProps p => {| props := p; state := state this |}
  end.

Definition run (ext : Collaborators) (this : Instance) (events : list event)
  : Instance :=
  foldl (step ext) this events.

(** The event edits the [name] field. *)
Definition edits_name (e : event) : Prop :=
  match e with
  | FieldsChange fields => is_Some (fields !! "name")
  | IndexNameChange _ => True
  | _ => False
  end.

(** The partial update that an event passes to [onFieldsChange] ([{}] for
    an event that edits no field). *)
Definition edit_of (ext : Collaborators) (this : Instance) (e : event) : obj :=
  match e with
  | FieldsChange fields => fields
  | IndexNameChange name => {[ "name" := name ]}
  | ClusterChange remoteCluster => {[ "remoteCluster" := remoteCluster ]}
  | ToggleAdvancedSettings =>
      if areAdvancedSettingsVisible (state this)
      then emptyAdvancedSettings ext
      else spread_opt (cachedAdvancedSettings (state this))
  | _ => ∅
  end.

(** The error that an event stores without validating anything ([{}] for
    an event that stores none). *)
Definition stored_error (e : event) : obj :=
  match e with
  | IndexNameChecked name (Resolved indices) =>
      if existsb (λ index, strict_equals (get index "name") name) indices
      then {[ "name" := indexAlreadyExistError ]}
      else ∅
  | RemoteClusterError error => {[ "remoteCluster" := error ]}
  | _ => ∅
  end.

(** The calls that leave the component while an event is handled. *)
Definition step_calls (ext : Collaborators) (this : Instance) (e : event)
  : list call :=
  match e with
  | FieldsChange fields => calls_during ext this (onFieldsChange ext this fields)
  | IndexNameChange name => calls_during ext this (onIndexNameChange ext this name)
  | IndexNameChecked name r =>
      calls_during ext this (validateIndexName ext this name r)
  | ClusterChange remoteCluster =>
      calls_during ext this (onClusterChange ext this remoteCluster)
  | RemoteClusterError error =>
      calls_during ext this (onRemoteClusterError this error)
  | ToggleAdvancedSettings => calls_during ext this (toggleAdvancedSettings this)
  | SendForm => calls_during ext this (sendForm this)
  | ReceiveProps _ => []
  end.

(** The event goes through [onFieldsChange]. *)
Definition changes_fields (e : event) : Prop :=
  match e with
  | FieldsChange _ | IndexNameChange _ | ClusterChange _
  | ToggleAdvancedSettings => True
  | _ => False
  end.

(** The stored error of every validated field is what its validator says
    of the field's current value, or, for [name], the error of the name
    check.  The error of [remoteCluster] is reported by the remote-cluster
    field itself (ll. 407-409) and is left out. *)
Definition errors_follow_validators (ext : Collaborators) (s : State) : Prop :=
  ∀ k validator,
    k ≠ "remoteCluster" → validator_for ext k = Some validator →
    fieldsErrors s !! k = validator <$> followerIndex s !! k
    ∨ (k = "name" ∧ fieldsErrors s !! k = Some indexAlreadyExistError).

(** The cache, once there is one, holds only advanced-setting fields, and
    none with the value ['']. *)
Definition cache_holds_set_fields (ext : Collaborators) (s : State) : Prop :=
  ∀ cache k v,
    cachedAdvancedSettings s = Some cache → cache !! k = Some v →
    k ∈ field <$> advancedSettingsFields ext ∧ v ≠ VStr [].

(** The record has every key of the empty defaults. *)
Definition has_default_keys (ext : Collaborators) (s : State) : Prop :=
  ∀ k, is_Some (getEmptyFollowerIndex ext VUndefined !! k) →
       is_Some (followerIndex s !! k).

(** ** A sample configuration

    Stand-ins for the imported collaborators and a few instances, on which
    the definitions above are evaluated. *)
Module Fixture.

Definition message (text : string) : value :=
  VObj {[ "message" := VStr (str text) ]}.

(** A value is required. *)
Definition required : validator :=
  λ v, if truthy v then VUndefined else message "required".

(** Empty, or a positive number. *)
Definition positive : validator :=
  λ v, match v with
       | VStr [] => VNull
       | VNum n => if 0 <? n then VNull else message "must be positive"
       | _ => message "must be a number"
       end.

Definition ext : Collaborators :=
  {| advancedSettingsFields :=
       [ {| field := "maxReadRequestOperationCount"; validator_of := Some positive |};
         {| field := "maxRetryDelay"; validator_of := Some positive |} ];
     indexNameValidator := required;
     leaderIndexValidator := required;
     location_search := VStr (str "?cluster=cluster-a");
     extractQueryParams := λ _, {[ "cluster" := VStr (str "cluster-a") ]};
     getRemoteClusterName := λ _ selected, selected;
     translate := λ _ options, get options "defaultMessage";
     formatMessage := λ descriptor values,
       VObj {[ "descriptor" := VObj descriptor;
               "values" := VObj (spread_opt values) ]} |}.

Definition new_props : Props :=
  {| props_followerIndex := None;
     apiError := VUndefined;
     apiStatus := VStr (str "idle");
     remoteClusters := VUndefined |}.

(** A freshly constructed form in new mode. *)
Definition fresh : Instance :=
  {| props := new_props; state := constructor ext new_props |}.

(** A name has been typed and its check is pending. *)
Definition named : Instance :=
  instance_after ext fresh
    (onIndexNameChange ext fresh (VStr (str "orders-follower"))).

(** The check has found no index of that name. *)
Definition checked : Instance :=
  instance_after ext named
    (validateIndexName ext named (VStr (str "orders-follower")) (Resolved [])).

(** The form of the spec's example: name, cluster and leader index filled
    in, advanced fields left empty. *)
Definition filled : Instance :=
  instance_after ext checked
    (onFieldsChange ext checked {[ "leaderIndex" := VStr (str "orders") ]}).

(** The remote-cluster field has reported an error. *)
Definition cluster_error : value := message "not connected".

Definition with_cluster_error : Instance :=
  instance_after ext filled (onRemoteClusterError filled cluster_error).

(** An existing record, with one advanced setting set. *)
Definition existing_record : obj :=
  {[ "name" := VStr (str "orders-follower");
     "remoteCluster" := VStr (str "cluster-a");
     "leaderIndex" := VStr (str "orders");
     "maxRetryDelay" := VNum 500 ]}.

Definition edit_props : Props :=
  {| props_followerIndex := Some existing_record;
     apiError := VObj {[ "status" := VNum 404 ]};
     apiStatus := VStr (str "idle");
     remoteClusters := VUndefined |}.

Definition editing : Instance :=
  {| props := edit_props; state := constructor ext edit_props |}.

(** A new form whose advanced settings are shown and one of them set. *)
Definition shown : Instance :=
  instance_after ext filled (toggleAdvancedSettings filled).

Definition tuned : Instance :=
  instance_after ext shown
    (onFieldsChange ext shown {[ "maxRetryDelay" := VNum 500 ]}).

(** A rejection in the shape of Angular's [$http] service. *)
Definition http_error : value :=
  VObj {[ "status" := VNum 403;
          "data" := VObj {[ "message" := VStr (str "forbidden") ]} ]}.

(** The fetched index list has an index of the typed name. *)
Definition taken : list obj :=
  [ {[ "name" := VStr (str "orders-follower") ]} ].

End Fixture.

(** ** Sample lives of a form *)
Module Scenario.

(** The example of the spec as events on a new form. *)
Definition filling : list event :=
  [ IndexNameChange (VStr (str "orders-follower"));
    IndexNameChecked (VStr (str "orders-follower")) (Resolved []);
    FieldsChange {[ "leaderIndex" := VStr (str "orders") ]} ].

(** Then the advanced settings are shown and one of them is set. *)
Definition tuning : list event :=
  filling ++ [ ToggleAdvancedSettings;
               FieldsChange {[ "maxRetryDelay" := VNum 500 ]} ].

(** What goes on after a name check, short of editing the name. *)
Definition carrying_on : list event :=
  [ FieldsChange {[ "leaderIndex" := VStr (str "orders-2") ]};
    ToggleAdvancedSettings;
    SendForm;
    ClusterChange (VStr (str "cluster-b"));
    IndexNameChecked (VStr (str "orders-follower")) (Resolved []) ].

Definition rendering : Rendering :=
  {| API_STATUS_SAVING := VStr (str "saving");
     this_sendForm := VObj {[ "name" := VStr (str "bound sendForm") ]};
     this_cancelForm := VObj {[ "name" := VStr (str "bound cancelForm") ]} |}.

(** The props while the save is in flight. *)
Definition saving_props : Props :=
  {| props_followerIndex := None;
     apiError := VUndefined;
     apiStatus := VStr (str "saving");
     remoteClusters := VUndefined |}.

(** A submit attempt on the empty form, then the form is filled in: the
    errors are gone and [areErrorsVisible] is still true. *)
Definition retrying : Instance :=
  run Fixture.ext (mount Fixture.ext Fixture.new_props) (SendForm :: filling).

(** A new form on which a save has failed: an API error is pending. *)
Definition failed_props : Props :=
  {| props_followerIndex := None;
     apiError := VObj {[ "status" := VNum 500 ]};
     apiStatus := VStr (str "idle");
     remoteClusters := VUndefined |}.

Definition failed : Instance :=
  step Fixture.ext Fixture.fresh (ReceiveProps failed_props).

End Scenario.

(** * Properties *)

Example trim_example :
  trim (str "  a b ") = str "a b" ∧ trim (str "   ") = [] ∧ trim [] = [].
Proof. vm_compute. done. Qed.

Lemma is_nullish_true (v : value) :
  is_nullish v = true ↔ v = VUndefined ∨ v = VNull.
Proof.
  destruct v; simpl; split; try (intros [?|?]); try discriminate; auto.
Qed.

Lemma isFormValid_true (this : Instance) :
  isFormValid this = true ↔ no_field_error (state this).
Proof.
  unfold isFormValid, no_field_error.
  rewrite forallb_forall. split.
  - intros Hall k e Hk. apply is_nullish_true, Hall.
    apply list_elem_of_In, list_elem_of_fmap.
    exists (k, e). split; [done|]. by apply elem_of_map_to_list.
  - intros Hall e He.
    apply list_elem_of_In, list_elem_of_fmap in He as [[k e'] [-> Hin]].
    apply elem_of_map_to_list in Hin. apply is_nullish_true. eauto.
Qed.

Lemma isFormValid_false (this : Instance) :
  isFormValid this = false ↔ ¬ no_field_error (state this).
Proof.
  rewrite <- isFormValid_true. destruct (isFormValid this); naive_solver.
Qed.

Section Properties.
Context (ext : Collaborators).
Implicit Types (this : Instance) (s prev : State) (fields errors : obj).

(** *** Objects and validation *)

Lemma lookup_spread (a b : obj) (k : string) :
  spread a b !! k = match b !! k with Some v => Some v | None => a !! k end.
Proof.
  unfold spread. rewrite lookup_union.
  by destruct (b !! k), (a !! k).
Qed.

Lemma get_spread (a b : obj) (k : string) :
  get (spread a b) k = match b !! k with Some v => v | None => get a k end.
Proof. unfold get. rewrite lookup_spread. by destruct (b !! k). Qed.

Lemma spread_nothing (b : obj) : spread (spread_opt None) b = b.
Proof. unfold spread, spread_opt. simpl. apply (right_id_L ∅ (∪)). Qed.

Lemma lookup_getFieldsErrors (newFields : obj) (k : string) :
  getFieldsErrors ext newFields !! k =
    match validator_for ext k with
    | Some validator => validator <$> newFields !! k
    | None => None
    end.
Proof.
  unfold getFieldsErrors.
  apply (map_fold_weak_ind
           (λ (r m : obj), r !! k = match validator_for ext k with
                               | Some validator => validator <$> m !! k
                               | None => None
                               end)).
  - rewrite !lookup_empty. by destruct (validator_for ext k).
  - intros i x m r Hi IH. destruct (decide (i = k)) as [->|Hne].
    + destruct (validator_for ext k).
      * by rewrite !lookup_insert_eq.
      * done.
    + rewrite (lookup_insert_ne m) by done.
      destruct (validator_for ext i); [|done].
      by rewrite lookup_insert_ne.
Qed.

(** *** Every batch is processed to the end *)

Lemma total_weight_app (q1 q2 : list update) :
  total_weight (q1 ++ q2) = (total_weight q1 + total_weight q2)%nat.
Proof.
  induction q1 as [|u q1 IH]; simpl; [done|]. rewrite IH. lia.
Qed.

Lemma weight_positive (u : update) : (1 ≤ weight u)%nat.
Proof. destruct u; simpl; lia. Qed.

Lemma onFieldsChange_weight this fields :
  total_weight (updates_of (onFieldsChange ext this fields).1) = 2%nat.
Proof.
  unfold onFieldsChange. by destruct (truthy (apiError (props this))).
Qed.

Lemma run_update_weight this (u : update) prev :
  (total_weight (updates_of (run_update ext this u prev).1) < weight u)%nat.
Proof.
  destruct u; simpl; try lia.
  unfold toggleAdvancedSettingsUpdater.
  destruct (areAdvancedSettingsVisible prev).
  - pose proof (onFieldsChange_weight this (emptyAdvancedSettings ext)) as Hw.
    unfold bind, ret. simpl.
    destruct (onFieldsChange ext this (emptyAdvancedSettings ext)) as [es []].
    simpl in *. rewrite app_nil_r. lia.
  - pose proof (onFieldsChange_weight this (spread_opt (cachedAdvancedSettings prev))) as Hw.
    unfold bind, ret. simpl.
    destruct (onFieldsChange ext this (spread_opt (cachedAdvancedSettings prev))) as [es []].
    simpl in *. rewrite app_nil_r. lia.
Qed.

Lemma process_drains (fuel : nat) this (queue : list update) prev (log : list call) :
  (total_weight queue ≤ fuel)%nat →
  (process ext fuel this queue prev log).1.1 = [].
Proof.
  revert queue prev log.
  induction fuel as [|fuel IH]; intros queue prev log Hfuel.
  - destruct queue as [|u queue]; [done|].
    simpl in Hfuel. pose proof (weight_positive u). lia.
  - destruct queue as [|u queue]; [done|]. simpl.
    pose proof (run_update_weight this u prev) as Hless.
    destruct (run_update ext this u prev) as [es p]. simpl in Hless.
    apply IH. rewrite total_weight_app. simpl in Hfuel. lia.
Qed.

(** The fuel that [flush] gives [process] is enough: no update is left in
    the queue when the batch is committed. *)
Lemma flush_drains this (queue : list update) :
  (flush ext this queue).1.1 = [].
Proof. unfold flush. by apply process_drains. Qed.

(** *** Field mutation *)

Lemma onFieldsChange_after this fields :
  after ext this (onFieldsChange ext this fields) =
    {| isNew := isNew (state this);
       followerIndex := spread (followerIndex (state this)) fields;
       fieldsErrors :=
         spread (fieldsErrors (state this)) (getFieldsErrors ext fields);
       areErrorsVisible := areErrorsVisible (state this);
       areAdvancedSettingsVisible := areAdvancedSettingsVisible (state this);
       isValidatingIndexName := isValidatingIndexName (state this);
       cachedAdvancedSettings := cachedAdvancedSettings (state this) |}.
Proof.
  unfold after, handle, onFieldsChange, flush, state_fields.
  rewrite spread_nothing.
  by destruct (truthy (apiError (props this))).
Qed.

Lemma onFieldsChange_calls this fields :
  calls_during ext this (onFieldsChange ext this fields) =
    if truthy (apiError (props this)) then [ClearApiError] else [].
Proof.
  unfold calls_during, handle, onFieldsChange, flush.
  by destruct (truthy (apiError (props this))).
Qed.

(** *** The field-to-validator table *)

Lemma lookup_table_fold (l : list AdvancedSetting)
    (m : gmap string (option validator)) (k : string) :
  k ∉ field <$> l →
  foldl (λ map advancedSetting,
           <[field advancedSetting := validator_of advancedSetting]> map) m l !! k
  = m !! k.
Proof.
  revert m. induction l as [|a l IH]; intros m Hk; [done|].
  rewrite fmap_cons, not_elem_of_cons in Hk. destruct Hk as [Hne Hk].
  simpl. rewrite IH by done. by rewrite lookup_insert_ne.
Qed.

(** A field that the advanced-settings table does not list has a
    validator only if it is one of the two built-in entries. *)
Lemma validator_for_builtin (k : string) :
  k ∉ field <$> advancedSettingsFields ext →
  validator_for ext k =
    if decide (k = "name") then Some (indexNameValidator ext)
    else if decide (k = "leaderIndex") then Some (leaderIndexValidator ext)
    else None.
Proof.
  intros Hk. unfold validator_for, fieldToValidatorMap.
  rewrite lookup_table_fold by done.
  repeat case_decide; subst; simplify_map_eq; done.
Qed.

(** An advanced setting contributes its own validator (the last entry of a
    field wins). *)
Lemma validator_for_advanced (l1 l2 : list AdvancedSetting) (a : AdvancedSetting) :
  advancedSettingsFields ext = l1 ++ a :: l2 →
  field a ∉ field <$> l2 →
  validator_for ext (field a) = validator_of a.
Proof.
  intros Hl Hlast. unfold validator_for, fieldToValidatorMap.
  rewrite Hl, foldl_app. simpl.
  rewrite lookup_table_fold by done.
  by rewrite lookup_insert_eq.
Qed.

(** *** Errors are merged, not replaced *)

(** C10. An errors update applied through [updateFormErrors] keeps the
    previous value of every entry whose key the update does not have; so
    [onFieldsChange] neither removes nor changes the stored error of a
    field outside the edited set. *)
Theorem updateFormErrors_keeps_other_entries s this errors fields (k : string) :
  (errors !! k = None →
     fieldsErrors (merge_state s (updateFormErrors errors s)) !! k
     = fieldsErrors s !! k)
  ∧ (fields !! k = None →
       fieldsErrors (after ext this (onFieldsChange ext this fields)) !! k
       = fieldsErrors (state this) !! k).
Proof.
  split.
  - intros Hk. simpl. by rewrite lookup_spread, Hk.
  - intros Hk. rewrite onFieldsChange_after. simpl.
    rewrite lookup_spread, lookup_getFieldsErrors, Hk.
    by destruct (validator_for ext k).
Qed.

(** C4, as the code has it, for a partial update whose keys are not names
    of [Object.prototype] members (the form's field names are not).
    [onFieldsChange(partialFields)] makes the record the old one
    overwritten by the partial update.  The merged update [newFields] holds
    the fields of the partial update (the state has no [fields] entry to
    merge them with); each of them that has a registered validator gets the
    validator's result as its stored error.  A field with no registered
    validator gets no entry in the recomputed errors, and its stored
    error, like that of any field outside the update, stays what it was.
    The table has the validator of each advanced setting and, for other
    fields that are not names of [Object.prototype] members, only the two
    built-in entries [name] and [leaderIndex].  [clearApiError] is invoked
    exactly when an API error is pending. *)
Theorem onFieldsChange_effect this fields :
  plain_keys fields →
  followerIndex (after ext this (onFieldsChange ext this fields))
    = spread (followerIndex (state this)) fields
  ∧ (∀ k value validator,
       fields !! k = Some value → validator_for ext k = Some validator →
       fieldsErrors (after ext this (onFieldsChange ext this fields)) !! k
       = Some (validator value))
  ∧ (∀ k, validator_for ext k = None →
       getFieldsErrors ext fields !! k = None
       ∧ fieldsErrors (after ext this (onFieldsChange ext this fields)) !! k
         = fieldsErrors (state this) !! k)
  ∧ (∀ k, fields !! k = None →
       fieldsErrors (after ext this (onFieldsChange ext this fields)) !! k
       = fieldsErrors (state this) !! k)
  ∧ (∀ k, k ∉ Object_prototype_names →
       k ∉ field <$> advancedSettingsFields ext →
       validator_for ext k =
         if decide (k = "name") then Some (indexNameValidator ext)
         else if decide (k = "leaderIndex") then Some (leaderIndexValidator ext)
         else None)
  ∧ (∀ l1 advancedSetting l2,
       advancedSettingsFields ext = l1 ++ advancedSetting :: l2 →
       field advancedSetting ∉ field <$> l2 →
       validator_for ext (field advancedSetting) = validator_of advancedSetting)
  ∧ (truthy (apiError (props this)) = true →
       calls_during ext this (onFieldsChange ext this fields) = [ClearApiError])
  ∧ (truthy (apiError (props this)) = false →
       calls_during ext this (onFieldsChange ext this fields) = []).
Proof.
  intros _.
  rewrite onFieldsChange_after, onFieldsChange_calls. simpl.
  split_and!.
  - done.
  - intros k v f Hk Hf. by rewrite lookup_spread, lookup_getFieldsErrors, Hf, Hk.
  - intros k Hf. by rewrite lookup_spread, lookup_getFieldsErrors, Hf.
  - intros k Hk. rewrite lookup_spread, lookup_getFieldsErrors, Hk.
    by destruct (validator_for ext k).
  - intros k _. apply validator_for_builtin.
  - intros l1 a l2. apply validator_for_advanced.
  - by intros ->.
  - by intros ->.
Qed.

(** *** Advanced settings toggle *)

Lemma strict_equals_empty (v : value) :
  strict_equals v (VStr []) = true ↔ v = VStr [].
Proof.
  destruct v as [| | | |s|]; simpl; try (split; [discriminate|discriminate]).
  rewrite bool_decide_eq_true. split; congruence.
Qed.

Lemma lookup_emptyAdvancedSettings (k : string) :
  emptyAdvancedSettings ext !! k =
    if decide (k ∈ field <$> advancedSettingsFields ext)
    then Some (VStr []) else None.
Proof.
  unfold emptyAdvancedSettings.
  induction (advancedSettingsFields ext) as [|a l IH].
  - rewrite fmap_nil, decide_False by apply not_elem_of_nil. done.
  - rewrite !fmap_cons, list_to_map_cons. simpl fst; simpl snd.
    destruct (decide (field a = k)) as [<-|Hne].
    + rewrite lookup_insert_eq, decide_True by apply list_elem_of_here. done.
    + rewrite lookup_insert_ne, IH by done.
      destruct (decide (k ∈ field <$> l)) as [Hin|Hout].
      * rewrite decide_True by (by apply list_elem_of_further). done.
      * rewrite decide_False; [done|].
        rewrite not_elem_of_cons. split; congruence.
Qed.

Lemma lookup_newCachedAdvancedSettings fields (k : string) :
  newCachedAdvancedSettings ext fields !! k =
    if decide (k ∈ field <$> advancedSettingsFields ext)
    then (if strict_equals (get fields k) (VStr [])
          then None else Some (get fields k))
    else None.
Proof.
  unfold newCachedAdvancedSettings.
  induction (advancedSettingsFields ext) as [|a l IH] using rev_ind.
  - rewrite fmap_nil, decide_False by apply not_elem_of_nil. done.
  - rewrite foldl_app, fmap_app, fmap_cons, fmap_nil.
    cbn [foldl]. cbv zeta.
    destruct (decide (field a = k)) as [<-|Hne].
    + rewrite (decide_True (P := field a ∈ _))
        by (apply elem_of_app; right; apply list_elem_of_here).
      destruct (strict_equals (get fields (field a)) (VStr [])) eqn:E; simpl.
      * rewrite IH. by case_decide.
      * by rewrite lookup_insert_eq.
    + set (cache := foldl _ ∅ l) in *.
      transitivity (cache !! k).
      { destruct (negb _); [by rewrite lookup_insert_ne|done]. }
      rewrite IH.
      destruct (decide (k ∈ field <$> l)) as [Hin|Hout].
      * rewrite decide_True by (apply elem_of_app; by left). done.
      * rewrite decide_False; [done|].
        rewrite elem_of_app, list_elem_of_singleton. intros [?|?]; congruence.
Qed.

Lemma toggle_hides this :
  areAdvancedSettingsVisible (state this) = true →
  after ext this (toggleAdvancedSettings this) =
    {| isNew := isNew (state this);
       followerIndex :=
         spread (followerIndex (state this)) (emptyAdvancedSettings ext);
       fieldsErrors :=
         spread (fieldsErrors (state this))
                (getFieldsErrors ext (emptyAdvancedSettings ext));
       areErrorsVisible := areErrorsVisible (state this);
       areAdvancedSettingsVisible := false;
       isValidatingIndexName := isValidatingIndexName (state this);
       cachedAdvancedSettings :=
         Some (newCachedAdvancedSettings ext (followerIndex (state this))) |}.
Proof.
  intros Hvisible.
  unfold after, handle, toggleAdvancedSettings, flush. simpl.
  unfold toggleAdvancedSettingsUpdater. rewrite Hvisible.
  unfold onFieldsChange, state_fields. rewrite spread_nothing.
  by destruct (truthy (apiError (props this))).
Qed.

Lemma toggle_shows this :
  areAdvancedSettingsVisible (state this) = false →
  after ext this (toggleAdvancedSettings this) =
    {| isNew := isNew (state this);
       followerIndex :=
         spread (followerIndex (state this))
                (spread_opt (cachedAdvancedSettings (state this)));
       fieldsErrors :=
         spread (fieldsErrors (state this))
                (getFieldsErrors ext
                   (spread_opt (cachedAdvancedSettings (state this))));
       areErrorsVisible := areErrorsVisible (state this);
       areAdvancedSettingsVisible := true;
       isValidatingIndexName := isValidatingIndexName (state this);
       cachedAdvancedSettings := Some ∅ |}.
Proof.
  intros Hhidden.
  unfold after, handle, toggleAdvancedSettings, flush. simpl.
  unfold toggleAdvancedSettingsUpdater. rewrite Hhidden.
  unfold onFieldsChange, state_fields. rewrite spread_nothing.
  by destruct (truthy (apiError (props this))).
Qed.

(** C3. Toggling the advanced settings while they are visible and again
    while they are hidden, with no edit in between: an advanced-setting
    field that held a value other than [''] holds that value again, one
    that held [''] still holds [''], and the cache is [{}] again.  In
    between the section is hidden and the field holds ['']. *)
Theorem toggle_hide_then_show_restores this (k : string) :
  areAdvancedSettingsVisible (state this) = true →
  k ∈ field <$> advancedSettingsFields ext →
  (get (followerIndex (state this)) k ≠ VStr [] →
     get (followerIndex (state (hide_then_show ext this))) k
     = get (followerIndex (state this)) k)
  ∧ (get (followerIndex (state this)) k = VStr [] →
       get (followerIndex (state (hide_then_show ext this))) k = VStr [])
  ∧ cachedAdvancedSettings (state (hide_then_show ext this)) = Some ∅
  ∧ areAdvancedSettingsVisible (state (hide_then_show ext this)) = true
  ∧ areAdvancedSettingsVisible (state (hidden ext this)) = false
  ∧ get (followerIndex (state (hidden ext this))) k = VStr [].
Proof.
  intros Hvisible Hk.
  assert (Hhidden : state (hidden ext this) = after ext this (toggleAdvancedSettings this))
    by done.
  assert (Hshown : state (hide_then_show ext this)
                   = after ext (hidden ext this) (toggleAdvancedSettings (hidden ext this))) by done.
  rewrite toggle_hides in Hhidden by done.
  rewrite toggle_shows in Hshown by (by rewrite Hhidden).
  rewrite Hshown, Hhidden. simpl.
  rewrite !get_spread, lookup_newCachedAdvancedSettings, lookup_emptyAdvancedSettings.
  rewrite !decide_True by done.
  destruct (strict_equals (get (followerIndex (state this)) k) (VStr [])) eqn:E.
  - apply strict_equals_empty in E. by rewrite E.
  - split_and!; try done.
Qed.

(** *** Name check *)

Lemma trim_start_head (s : jsstring) :
  trim_start s = [] ∨
  ∃ c t, trim_start s = c :: t ∧ is_whitespace c = false.
Proof.
  induction s as [|c s IH]; simpl; [by left|].
  destruct (is_whitespace c) eqn:E; [done|].
  right. by exists c, s.
Qed.

Lemma trim_start_nil (s : jsstring) :
  trim_start s = [] ↔ only_whitespace s.
Proof.
  unfold only_whitespace. induction s as [|c s IH]; simpl.
  - split; [constructor|done].
  - destruct (is_whitespace c) eqn:E.
    + rewrite IH, Forall_cons. tauto.
    + split; [done|]. intros Hall. apply Forall_cons in Hall as [Hc _]. congruence.
Qed.

Lemma trim_nil (s : jsstring) : trim s = [] ↔ only_whitespace s.
Proof.
  unfold trim. split.
  - intros Htrim.
    assert (Hend : trim_start (reverse (trim_start s)) = []).
    { apply (f_equal length) in Htrim. rewrite length_reverse in Htrim.
      by apply nil_length_inv. }
    apply trim_start_nil in Hend. unfold only_whitespace in Hend.
    rewrite Forall_reverse in Hend.
    destruct (trim_start_head s) as [Hnil|(c & t & Hct & Hc)].
    + by apply trim_start_nil.
    + rewrite Hct in Hend. apply Forall_cons in Hend as [Hc' _]. congruence.
  - intros Hall. apply trim_start_nil in Hall. by rewrite Hall.
Qed.

Lemma onIndexNameChange_blank this (s : jsstring) :
  only_whitespace s →
  handle ext this (onIndexNameChange ext this (VStr s)) =
    ({| props := props this;
        state := merge_state
                   (after ext this (onFieldsChange ext this {[ "name" := VStr s ]}))
                   (patch_isValidatingIndexName false) |},
     calls_during ext this (onFieldsChange ext this {[ "name" := VStr s ]}),
     Returned).
Proof.
  intros Hblank. apply trim_nil in Hblank.
  unfold after, calls_during, handle, onIndexNameChange, onFieldsChange, flush.
  destruct s as [|c s]; simpl.
  - by destruct (truthy (apiError (props this))).
  - rewrite Hblank. simpl. by destruct (truthy (apiError (props this))).
Qed.

Lemma onIndexNameChange_named this (s : jsstring) :
  ¬ only_whitespace s →
  handle ext this (onIndexNameChange ext this (VStr s)) =
    ({| props := props this;
        state := merge_state
                   (after ext this (onFieldsChange ext this {[ "name" := VStr s ]}))
                   (patch_isValidatingIndexName true) |},
     calls_during ext this (onFieldsChange ext this {[ "name" := VStr s ]})
       ++ [ValidateIndexName (VStr s)],
     Returned).
Proof.
  intros Hnamed. rewrite <- trim_nil in Hnamed.
  unfold after, calls_during, handle, onIndexNameChange, onFieldsChange, flush.
  destruct s as [|c s]; [done|]. simpl.
  destruct (trim (c :: s)) eqn:E; [done|]. simpl.
  by destruct (truthy (apiError (props this))).
Qed.

(** C6. For a name that is empty or only white space,
    [onIndexNameChange] ends with [isValidatingIndexName] false and
    without invoking the debounced check; for any other name it ends with
    [isValidatingIndexName] true and invokes the check with that name. *)
Theorem onIndexNameChange_validating this (s : jsstring) :
  (only_whitespace s →
     isValidatingIndexName (after ext this (onIndexNameChange ext this (VStr s))) = false
     ∧ (∀ name, ValidateIndexName name ∉
                  calls_during ext this (onIndexNameChange ext this (VStr s)))
     ∧ completion_of ext this (onIndexNameChange ext this (VStr s)) = Returned)
  ∧ (¬ only_whitespace s →
       isValidatingIndexName (after ext this (onIndexNameChange ext this (VStr s))) = true
       ∧ ValidateIndexName (VStr s) ∈
           calls_during ext this (onIndexNameChange ext this (VStr s))
       ∧ completion_of ext this (onIndexNameChange ext this (VStr s)) = Returned).
Proof.
  unfold after, calls_during, completion_of. split.
  - intros Hblank. rewrite onIndexNameChange_blank by done. simpl.
    split_and!; try done.
    intros name. fold (calls_during ext this (onFieldsChange ext this {[ "name" := VStr s ]})).
    rewrite onFieldsChange_calls.
    destruct (truthy (apiError (props this))).
    + rewrite list_elem_of_singleton. discriminate.
    + apply not_elem_of_nil.
  - intros Hnamed. rewrite onIndexNameChange_named by done. simpl.
    split_and!; try done.
    apply elem_of_app. right. apply list_elem_of_here.
Qed.

Lemma strict_equals_string (v : value) (name : jsstring) :
  strict_equals v (VStr name) = true ↔ v = VStr name.
Proof.
  destruct v as [| | | |s|]; simpl; try (split; [discriminate|discriminate]).
  rewrite bool_decide_eq_true. split; congruence.
Qed.

Lemma doesExist_true (indices : list obj) (name : jsstring) :
  existsb (λ index, strict_equals (get index "name") (VStr name)) indices = true
  ↔ ∃ index, index ∈ indices ∧ get index "name" = VStr name.
Proof.
  rewrite existsb_exists. split.
  - intros (index & Hin & Heq). exists index.
    by rewrite list_elem_of_In, <- strict_equals_string.
  - intros (index & Hin & Heq). exists index.
    by rewrite <- list_elem_of_In, strict_equals_string.
Qed.

(** C5. When the fetch resolves and the candidate name is the [name] of
    some fetched entry, the error descriptor stored under [name] in the
    field errors has [alwaysVisible] true; with or without a match,
    [isValidatingIndexName] ends false (and nothing is reported). *)
Theorem validateIndexName_resolved this (name : jsstring) (indices : list obj) :
  isValidatingIndexName
    (after ext this (validateIndexName ext this (VStr name) (Resolved indices)))
  = false
  ∧ ((∃ index, index ∈ indices ∧ get index "name" = VStr name) →
       fieldsErrors
         (after ext this (validateIndexName ext this (VStr name) (Resolved indices)))
         !! "name" = Some indexAlreadyExistError
       ∧ prop indexAlreadyExistError "alwaysVisible" = VBool true)
  ∧ (¬ (∃ index, index ∈ indices ∧ get index "name" = VStr name) →
       fieldsErrors
         (after ext this (validateIndexName ext this (VStr name) (Resolved indices)))
       = fieldsErrors (state this))
  ∧ calls_during ext this (validateIndexName ext this (VStr name) (Resolved indices))
    = [].
Proof.
  rewrite <- doesExist_true.
  unfold after, calls_during, handle, validateIndexName, flush.
  destruct (existsb _ indices); simpl; split_and!; try done.
  intros _. split; [|done]. by rewrite lookup_spread, lookup_singleton_eq.
Qed.

Lemma validateIndexName_rejected_calls this (name error : value) :
  calls_during ext this (validateIndexName ext this name (Rejected error))
  = [FatalError error (indexNameValidationFatalErrorTitle ext)].
Proof.
  unfold calls_during, handle, validateIndexName, flush.
  by destruct (truthy error && truthy (prop error "data")).
Qed.

Lemma validateIndexName_rejected_after this (name error : value) :
  after ext this (validateIndexName ext this name (Rejected error))
  = if truthy error && truthy (prop error "data")
    then merge_state (state this) (patch_isValidatingIndexName false)
    else state this.
Proof.
  unfold after, handle, validateIndexName, flush.
  by destruct (truthy error && truthy (prop error "data")).
Qed.

(** *** Construction *)

Lemma getEmptyFollowerIndex_remoteCluster (remoteClusterName : value) :
  "remoteCluster" ∉ field <$> advancedSettingsFields ext →
  get (getEmptyFollowerIndex ext remoteClusterName) "remoteCluster" =
    with_default remoteClusterName (VStr []).
Proof.
  intros Hfree. unfold getEmptyFollowerIndex.
  rewrite get_spread, lookup_emptyAdvancedSettings, decide_False by done.
  unfold get. by simplify_map_eq.
Qed.

Lemma lookup_table_contributed (l : list AdvancedSetting)
    (m : gmap string (option validator)) (k : string) :
  foldl (λ map advancedSetting,
           <[field advancedSetting := validator_of advancedSetting]> map) m l !! k
  = match contributed_validator l k with
    | Some validator => Some validator
    | None => m !! k
    end.
Proof.
  revert m. induction l as [|a l IH] using rev_ind; intros m; [done|].
  rewrite foldl_app. simpl.
  assert (Hlast : contributed_validator (l ++ [a]) k =
                    if decide (field a = k) then Some (validator_of a)
                    else contributed_validator l k).
  { clear IH. induction l as [|b l IHl]; simpl.
    - by case_decide.
    - rewrite IHl. case_decide; [done|].
      by destruct (contributed_validator l k). }
  rewrite Hlast. case_decide as Hk.
  - subst k. by rewrite lookup_insert_eq.
  - by rewrite lookup_insert_ne, IH.
Qed.

(** The table that the module builds is the table of the spec. *)
Lemma validator_for_registered (k : string) :
  validator_for ext k = registered_validator ext k.
Proof.
  unfold validator_for, fieldToValidatorMap, registered_validator.
  rewrite lookup_table_contributed.
  destruct (contributed_validator (advancedSettingsFields ext) k); [done|].
  repeat case_decide; subst; by simplify_map_eq.
Qed.

Lemma lookup_getEmptyFollowerIndex (remoteClusterName : value) (k : string) :
  getEmptyFollowerIndex ext remoteClusterName !! k =
    default_field ext (with_default remoteClusterName (VStr [])) k.
Proof.
  unfold getEmptyFollowerIndex, default_field.
  rewrite lookup_spread, lookup_emptyAdvancedSettings.
  case_decide; [done|].
  repeat case_decide; subst; by simplify_map_eq.
Qed.

(** C7. The constructed form is in new mode exactly when the
    [followerIndex] prop is absent.  In new mode the record is the empty
    defaults for the cluster name resolved from the [cluster] query
    parameter: every advanced-setting field holds [''], [name] and
    [leaderIndex] hold [''], [remoteCluster] holds the resolved name ([''] if
    there is none), and there is no other field; the advanced settings
    start hidden.  With an existing record each field holds the record's
    value, or the empty default where the record has none, and the
    advanced settings start visible.  In both modes the stored error of
    each field of the record that has a validator in the table is the
    validator's result on the field's value, no other field has a stored
    error, and the errors start out not shown.  (The keys of a supplied
    record are not names of [Object.prototype] members.) *)
Theorem constructor_seeds_state (p : Props) :
  (∀ record, props_followerIndex p = Some record → plain_keys record) →
  (isNew (constructor ext p) = true ↔ props_followerIndex p = None)
  ∧ (props_followerIndex p = None →
       followerIndex (constructor ext p) =
         getEmptyFollowerIndex ext
           (getRemoteClusterName ext (remoteClusters p)
              (get (extractQueryParams ext (location_search ext)) "cluster"))
       ∧ areAdvancedSettingsVisible (constructor ext p) = false)
  ∧ (∀ record, props_followerIndex p = Some record →
       followerIndex (constructor ext p) =
         spread (getEmptyFollowerIndex ext VUndefined) record
       ∧ areAdvancedSettingsVisible (constructor ext p) = true)
  ∧ fieldsErrors (constructor ext p) =
      getFieldsErrors ext (followerIndex (constructor ext p))
  ∧ areErrorsVisible (constructor ext p) = false
  ∧ isValidatingIndexName (constructor ext p) = false
  ∧ ("remoteCluster" ∉ field <$> advancedSettingsFields ext →
       props_followerIndex p = None →
       get (followerIndex (constructor ext p)) "remoteCluster" =
         with_default
           (getRemoteClusterName ext (remoteClusters p)
              (get (extractQueryParams ext (location_search ext)) "cluster"))
           (VStr []))
  ∧ (props_followerIndex p = None →
       ∀ k, followerIndex (constructor ext p) !! k =
              default_field ext
                (with_default
                   (getRemoteClusterName ext (remoteClusters p)
                      (get (extractQueryParams ext (location_search ext))
                           "cluster"))
                   (VStr []))
                k)
  ∧ (∀ record, props_followerIndex p = Some record →
       ∀ k, followerIndex (constructor ext p) !! k =
              match record !! k with
              | Some v => Some v
              | None => default_field ext (VStr []) k
              end)
  ∧ (∀ k, fieldsErrors (constructor ext p) !! k =
            match registered_validator ext k with
            | Some validator => validator <$> followerIndex (constructor ext p) !! k
            | None => None
            end).
Proof.
  intros _.
  assert (Herrors : ∀ k, fieldsErrors (constructor ext p) !! k =
            match registered_validator ext k with
            | Some validator => validator <$> followerIndex (constructor ext p) !! k
            | None => None
            end).
  { intros k. rewrite <- validator_for_registered.
    unfold constructor. simpl. apply lookup_getFieldsErrors. }
  revert Herrors. unfold constructor.
  destruct (props_followerIndex p) as [record|] eqn:Hrecord; simpl;
    intros Herrors.
  - split_and!; try done.
    + intros r [= <-]. done.
    + intros r [= <-] k.
      by rewrite lookup_spread, lookup_getEmptyFollowerIndex.
  - split_and!; try done.
    + intros Hfree _. by apply getEmptyFollowerIndex_remoteCluster.
    + intros _ k. apply lookup_getEmptyFollowerIndex.
Qed.

(** *** Submission-level errors *)

(** C8. With an API error whose status is 404, [renderApiErrors] renders
    the error section with a descriptor whose message is formatted with
    the current [leaderIndex] value, in place of the API error; with an
    API error of any other status it renders the section with the API
    error itself; with no API error it renders nothing. *)
Theorem renderApiErrors_cases this :
  (truthy (apiError (props this)) = false → renderApiErrors ext this = VNull)
  ∧ (truthy (apiError (props this)) = true →
     prop (apiError (props this)) "status" = VNum 404 →
     prop (prop (renderApiErrors ext this) "props") "error" =
       VObj {[ "data" := VObj {[ "message" :=
         formatMessage ext
           {[ "id" := VStr (str "xpack.crossClusterReplication.followerIndexForm.leaderIndexNotFoundError");
              "defaultMessage" := VStr (str "The leader index '{leaderIndex}' you want to replicate from does not exist.") ]}
           (Some {[ "leaderIndex" := get (followerIndex (state this)) "leaderIndex" ]}) ]} ]})
  ∧ (truthy (apiError (props this)) = true →
     prop (apiError (props this)) "status" ≠ VNum 404 →
     prop (prop (renderApiErrors ext this) "props") "error" = apiError (props this))
  ∧ (truthy (apiError (props this)) = true →
     prop (renderApiErrors ext this) "type" = VStr (str "SectionError")).
Proof.
  unfold renderApiErrors. split_and!.
  - by intros ->.
  - intros -> ->. simpl. unfold get. by simplify_map_eq.
  - intros -> Hstatus.
    destruct (strict_equals (prop (apiError (props this)) "status") (VNum 404)) eqn:E.
    + destruct (prop (apiError (props this)) "status"); try discriminate.
      simpl in E. apply bool_decide_eq_true in E. congruence.
    + simpl. unfold get. by simplify_map_eq.
  - intros ->. simpl. unfold get. by simplify_map_eq.
Qed.

(** *** Submission *)

Lemma sendForm_calls this :
  calls_during ext this (sendForm this) =
    if isFormValid this
    then [SaveFollowerIndex (get (followerIndex (state this)) "name")
                            (delete "name" (followerIndex (state this)))]
    else [].
Proof.
  unfold calls_during, handle, sendForm, flush.
  by destruct (isFormValid this).
Qed.

(** C1. [sendForm()] invokes [saveFollowerIndex] if and only if every
    tracked field error is [undefined] or [null].  When it does, that is
    its only call: the first argument is the [name] value and the second
    is the follower-index record without its [name] key, every other field
    as it was.  When some error is present it calls nothing. *)
Theorem sendForm_saves_iff_no_field_error this :
  (saves (calls_during ext this (sendForm this)) ↔ no_field_error (state this))
  ∧ (no_field_error (state this) →
       calls_during ext this (sendForm this) =
         [SaveFollowerIndex (get (followerIndex (state this)) "name")
                            (delete "name" (followerIndex (state this)))])
  ∧ delete "name" (followerIndex (state this)) !! "name" = None
  ∧ (∀ field, field ≠ "name" →
       delete "name" (followerIndex (state this)) !! field =
         followerIndex (state this) !! field)
  ∧ (¬ no_field_error (state this) →
       calls_during ext this (sendForm this) = []).
Proof.
  rewrite sendForm_calls.
  pose proof (isFormValid_true this) as Hvalid.
  split_and!.
  - rewrite <- Hvalid. destruct (isFormValid this); split; try done.
    + intros _. eexists _, _. by apply list_elem_of_singleton.
    + intros (n & r & Hin). by apply elem_of_nil in Hin.
  - intros Hno. apply Hvalid in Hno. by rewrite Hno.
  - apply lookup_delete_eq.
  - intros k Hk. by apply lookup_delete_ne.
  - intros Hno. destruct (isFormValid this); [|done].
    destruct Hno. by apply Hvalid.
Qed.

(** C9. [sendForm()] sets [areErrorsVisible] to the negation of the
    form's validity, whatever the flag was before: it ends [false] when
    every tracked field error is [undefined] or [null], also after a failed
    attempt had set it, and [true] when some field has an error.  Nothing
    else of the state changes. *)
Theorem sendForm_areErrorsVisible this :
  areErrorsVisible (after ext this (sendForm this)) = negb (isFormValid this)
  ∧ (no_field_error (state this) →
       areErrorsVisible (after ext this (sendForm this)) = false)
  ∧ (¬ no_field_error (state this) →
       areErrorsVisible (after ext this (sendForm this)) = true)
  ∧ followerIndex (after ext this (sendForm this)) = followerIndex (state this)
  ∧ fieldsErrors (after ext this (sendForm this)) = fieldsErrors (state this)
  ∧ isNew (after ext this (sendForm this)) = isNew (state this)
  ∧ areAdvancedSettingsVisible (after ext this (sendForm this))
    = areAdvancedSettingsVisible (state this)
  ∧ isValidatingIndexName (after ext this (sendForm this))
    = isValidatingIndexName (state this)
  ∧ cachedAdvancedSettings (after ext this (sendForm this))
    = cachedAdvancedSettings (state this).
Proof.
  assert (Hflag : areErrorsVisible (after ext this (sendForm this))
                  = negb (isFormValid this)).
  { unfold after, handle, sendForm, flush. by destruct (isFormValid this). }
  split_and!.
  - done.
  - intros Hvalid. apply isFormValid_true in Hvalid. by rewrite Hflag, Hvalid.
  - intros Hinvalid. apply isFormValid_false in Hinvalid.
    by rewrite Hflag, Hinvalid.
  - unfold after, handle, sendForm, flush. by destruct (isFormValid this).
  - unfold after, handle, sendForm, flush. by destruct (isFormValid this).
  - unfold after, handle, sendForm, flush. by destruct (isFormValid this).
  - unfold after, handle, sendForm, flush. by destruct (isFormValid this).
  - unfold after, handle, sendForm, flush. by destruct (isFormValid this).
  - unfold after, handle, sendForm, flush.
    destruct (isFormValid this); simpl;
      by destruct (cachedAdvancedSettings (state this)).
Qed.

End Properties.

Example fixture_filled_valid :
  isFormValid Fixture.filled = true
  ∧ isFormValid Fixture.fresh = false
  ∧ isFormValid Fixture.with_cluster_error = false
  ∧ get (followerIndex (state Fixture.filled)) "remoteCluster" = VStr (str "cluster-a")
  ∧ areAdvancedSettingsVisible (state Fixture.editing) = true.
Proof. vm_compute. done. Qed.

(** ** The statements on the sample configuration *)

Lemma filled_no_field_error : no_field_error (state Fixture.filled).
Proof. by apply isFormValid_true. Defined.

(** The example of the spec: a new follower index with name, cluster and
    leader index filled in and the advanced fields left empty is saved
    under its name, with the other fields as the second argument. *)
Example sendForm_filled :
  calls_during Fixture.ext Fixture.filled (sendForm Fixture.filled) =
    [SaveFollowerIndex (VStr (str "orders-follower"))
       {[ "remoteCluster" := VStr (str "cluster-a");
          "leaderIndex" := VStr (str "orders");
          "maxReadRequestOperationCount" := VStr [];
          "maxRetryDelay" := VStr [] ]}].
Proof. vm_compute. done. Qed.

Lemma sendForm_saves_iff_no_field_error_witness :
  no_field_error (state Fixture.filled)
  ∧ calls_during Fixture.ext Fixture.filled (sendForm Fixture.filled) =
      [SaveFollowerIndex
         (get (followerIndex (state Fixture.filled)) "name")
         (delete "name" (followerIndex (state Fixture.filled)))].
Proof.
  split; [exact filled_no_field_error|].
  exact (proj1 (proj2 (sendForm_saves_iff_no_field_error Fixture.ext Fixture.filled))
           filled_no_field_error).
Defined.

Lemma retrying_no_field_error : no_field_error (state Scenario.retrying).
Proof. apply isFormValid_true. vm_compute. reflexivity. Defined.

Lemma fresh_has_field_error : ¬ no_field_error (state Fixture.fresh).
Proof. apply isFormValid_false. vm_compute. reflexivity. Defined.

Lemma sendForm_areErrorsVisible_witness :
  areErrorsVisible (state Scenario.retrying) = true
  ∧ no_field_error (state Scenario.retrying)
  ∧ areErrorsVisible
      (after Fixture.ext Scenario.retrying (sendForm Scenario.retrying))
    = false
  ∧ areErrorsVisible (state Fixture.fresh) = false
  ∧ ¬ no_field_error (state Fixture.fresh)
  ∧ areErrorsVisible (after Fixture.ext Fixture.fresh (sendForm Fixture.fresh))
    = true.
Proof.
  assert (Hset : areErrorsVisible (state Scenario.retrying) = true)
    by (vm_compute; reflexivity).
  assert (Hunset : areErrorsVisible (state Fixture.fresh) = false)
    by reflexivity.
  split_and!.
  - exact Hset.
  - exact retrying_no_field_error.
  - exact (proj1 (proj2 (sendForm_areErrorsVisible Fixture.ext Scenario.retrying))
             retrying_no_field_error).
  - exact Hunset.
  - exact fresh_has_field_error.
  - exact (proj1 (proj2 (proj2
             (sendForm_areErrorsVisible Fixture.ext Fixture.fresh)))
             fresh_has_field_error).
Defined.

Lemma toggle_hide_then_show_restores_witness :
  areAdvancedSettingsVisible (state Fixture.tuned) = true
  ∧ "maxRetryDelay" ∈ (field <$> advancedSettingsFields Fixture.ext)
  ∧ get (followerIndex (state Fixture.tuned)) "maxRetryDelay" ≠ VStr []
  ∧ get (followerIndex (state (hide_then_show Fixture.ext Fixture.tuned)))
        "maxRetryDelay"
    = get (followerIndex (state Fixture.tuned)) "maxRetryDelay".
Proof.
  assert (Hvisible : areAdvancedSettingsVisible (state Fixture.tuned) = true)
    by reflexivity.
  assert (Hfield : "maxRetryDelay" ∈ field <$> advancedSettingsFields Fixture.ext)
    by (apply (bool_decide_unpack _); vm_compute; exact I).
  assert (Hset : get (followerIndex (state Fixture.tuned)) "maxRetryDelay" ≠ VStr [])
    by (vm_compute; discriminate).
  split_and!; try assumption.
  exact (proj1 (toggle_hide_then_show_restores Fixture.ext Fixture.tuned
                  "maxRetryDelay" Hvisible Hfield) Hset).
Defined.

Example toggle_tuned :
  get (followerIndex (state Fixture.tuned)) "maxRetryDelay" = VNum 500
  ∧ get (followerIndex (state (hidden Fixture.ext Fixture.tuned))) "maxRetryDelay"
    = VStr []
  ∧ cachedAdvancedSettings (state (hidden Fixture.ext Fixture.tuned))
    = Some {[ "maxRetryDelay" := VNum 500 ]}
  ∧ get (followerIndex (state (hide_then_show Fixture.ext Fixture.tuned)))
        "maxRetryDelay" = VNum 500
  ∧ cachedAdvancedSettings (state (hide_then_show Fixture.ext Fixture.tuned))
    = Some ∅.
Proof. vm_compute. done. Qed.

(** The claim C4 as stated fails where a field without a registered
    validator already has a stored error.  The remote-cluster field has
    reported an error through [onError]; then the cluster is changed: the
    update has the field, the table has no validator for it, and after
    [onFieldsChange] the field still has its error. *)
Lemma onFieldsChange_keeps_unvalidated_error :
  ({[ "remoteCluster" := VStr (str "cluster-b") ]} : obj) !! "remoteCluster"
    = Some (VStr (str "cluster-b"))
  ∧ validator_for Fixture.ext "remoteCluster" = None
  ∧ get (fieldsErrors (state Fixture.with_cluster_error)) "remoteCluster"
    = Fixture.cluster_error
  ∧ get (fieldsErrors
           (after Fixture.ext Fixture.with_cluster_error
              (onFieldsChange Fixture.ext Fixture.with_cluster_error
                 {[ "remoteCluster" := VStr (str "cluster-b") ]})))
        "remoteCluster"
    = Fixture.cluster_error
  ∧ is_nullish
      (get (fieldsErrors
              (after Fixture.ext Fixture.with_cluster_error
                 (onFieldsChange Fixture.ext Fixture.with_cluster_error
                    {[ "remoteCluster" := VStr (str "cluster-b") ]})))
           "remoteCluster")
    = false.
Proof. vm_compute. done. Qed.

(** The same through [onClusterChange], which also stores the new
    cluster. *)
Example onClusterChange_with_cluster_error :
  get (fieldsErrors
         (after Fixture.ext Fixture.with_cluster_error
            (onClusterChange Fixture.ext Fixture.with_cluster_error
               (VStr (str "cluster-b")))))
      "remoteCluster"
  = Fixture.cluster_error
  ∧ get (followerIndex
           (after Fixture.ext Fixture.with_cluster_error
              (onClusterChange Fixture.ext Fixture.with_cluster_error
                 (VStr (str "cluster-b")))))
        "remoteCluster"
    = VStr (str "cluster-b").
Proof. vm_compute. done. Qed.

Lemma onFieldsChange_effect_witness :
  plain_keys {[ "leaderIndex" := VStr (str "orders") ]}
  ∧ ({[ "leaderIndex" := VStr (str "orders") ]} : obj) !! "leaderIndex"
    = Some (VStr (str "orders"))
  ∧ validator_for Fixture.ext "leaderIndex" = Some Fixture.required
  ∧ fieldsErrors
      (after Fixture.ext Fixture.fresh
         (onFieldsChange Fixture.ext Fixture.fresh
            {[ "leaderIndex" := VStr (str "orders") ]}))
      !! "leaderIndex"
    = Some (Fixture.required (VStr (str "orders"))).
Proof.
  assert (Hplain : plain_keys {[ "leaderIndex" := VStr (str "orders") ]}).
  { unfold plain_keys, Object_prototype_names.
    repeat (apply Forall_cons_2; [reflexivity|]). apply Forall_nil_2. }
  assert (Hfield : ({[ "leaderIndex" := VStr (str "orders") ]} : obj) !! "leaderIndex"
                   = Some (VStr (str "orders"))) by reflexivity.
  assert (Hvalidator : validator_for Fixture.ext "leaderIndex" = Some Fixture.required)
    by reflexivity.
  split_and!; try assumption.
  exact (proj1 (proj2 (onFieldsChange_effect Fixture.ext Fixture.fresh
                         {[ "leaderIndex" := VStr (str "orders") ]} Hplain))
           "leaderIndex" _ _ Hfield Hvalidator).
Defined.

Lemma updateFormErrors_keeps_other_entries_witness :
  ({[ "leaderIndex" := VStr (str "orders") ]} : obj) !! "name" = None
  ∧ fieldsErrors
      (after Fixture.ext Fixture.fresh
         (onFieldsChange Fixture.ext Fixture.fresh
            {[ "leaderIndex" := VStr (str "orders") ]}))
      !! "name"
    = fieldsErrors (state Fixture.fresh) !! "name".
Proof.
  assert (Hother : ({[ "leaderIndex" := VStr (str "orders") ]} : obj) !! "name" = None)
    by reflexivity.
  split; [exact Hother|].
  exact (proj2 (updateFormErrors_keeps_other_entries Fixture.ext
                  (state Fixture.fresh) Fixture.fresh
                  {[ "leaderIndex" := VStr (str "orders") ]}
                  {[ "leaderIndex" := VStr (str "orders") ]} "name") Hother).
Defined.

(** C2, on the code.  The fetch is rejected with an error that carries a
    [data] payload: the validating indicator is cleared and the field
    errors are left alone, but the fatal-error reporter is invoked all the
    same, since the [catch] block does not return after the [if]. *)
Theorem validateIndexName_structured_rejection_is_fatal :
  truthy (prop Fixture.http_error "data") = true
  ∧ isValidatingIndexName (state Fixture.named) = true
  ∧ isValidatingIndexName
      (after Fixture.ext Fixture.named
         (validateIndexName Fixture.ext Fixture.named
            (VStr (str "orders-follower")) (Rejected Fixture.http_error)))
    = false
  ∧ fieldsErrors
      (after Fixture.ext Fixture.named
         (validateIndexName Fixture.ext Fixture.named
            (VStr (str "orders-follower")) (Rejected Fixture.http_error)))
    = fieldsErrors (state Fixture.named)
  ∧ calls_during Fixture.ext Fixture.named
      (validateIndexName Fixture.ext Fixture.named
         (VStr (str "orders-follower")) (Rejected Fixture.http_error))
    = [FatalError Fixture.http_error
         (indexNameValidationFatalErrorTitle Fixture.ext)].
Proof.
  rewrite validateIndexName_rejected_calls, validateIndexName_rejected_after.
  split_and!; reflexivity.
Qed.

Lemma validateIndexName_resolved_witness :
  (∃ index : obj,
     index ∈ Fixture.taken
     ∧ get index "name" = VStr (str "orders-follower"))
  ∧ fieldsErrors
      (after Fixture.ext Fixture.named
         (validateIndexName Fixture.ext Fixture.named
            (VStr (str "orders-follower"))
            (Resolved Fixture.taken)))
      !! "name"
    = Some indexAlreadyExistError.
Proof.
  assert (Hexists :
    ∃ index : obj,
      index ∈ Fixture.taken
      ∧ get index "name" = VStr (str "orders-follower")).
  { eexists. split; [apply list_elem_of_here|reflexivity]. }
  split; [exact Hexists|].
  exact (proj1 (proj1 (proj2 (validateIndexName_resolved Fixture.ext Fixture.named
                         (str "orders-follower")
                         Fixture.taken))
                  Hexists)).
Defined.

(** The second example of the spec: once the check has found an index of
    the same name, the form is invalid and [sendForm()] saves nothing. *)
Example sendForm_after_collision :
  calls_during Fixture.ext
    (instance_after Fixture.ext Fixture.filled
       (validateIndexName Fixture.ext Fixture.filled
          (VStr (str "orders-follower"))
          (Resolved Fixture.taken)))
    (sendForm
       (instance_after Fixture.ext Fixture.filled
          (validateIndexName Fixture.ext Fixture.filled
             (VStr (str "orders-follower"))
             (Resolved Fixture.taken))))
  = [].
Proof. vm_compute. done. Qed.

Lemma onIndexNameChange_validating_witness :
  only_whitespace (str "   ")
  ∧ isValidatingIndexName
      (after Fixture.ext Fixture.named
         (onIndexNameChange Fixture.ext Fixture.named (VStr (str "   "))))
    = false
  ∧ ¬ only_whitespace (str "orders")
  ∧ isValidatingIndexName
      (after Fixture.ext Fixture.fresh
         (onIndexNameChange Fixture.ext Fixture.fresh (VStr (str "orders"))))
    = true.
Proof.
  assert (Hblank : only_whitespace (str "   "))
    by (apply trim_nil; reflexivity).
  assert (Hnamed : ¬ only_whitespace (str "orders"))
    by (intros H; apply trim_nil in H; vm_compute in H; discriminate).
  split_and!; try assumption.
  - exact (proj1 (proj1 (onIndexNameChange_validating Fixture.ext Fixture.named
                           (str "   ")) Hblank)).
  - exact (proj1 (proj2 (onIndexNameChange_validating Fixture.ext Fixture.fresh
                           (str "orders")) Hnamed)).
Defined.

Lemma existing_record_plain_keys :
  ∀ record, props_followerIndex Fixture.edit_props = Some record →
            plain_keys record.
Proof.
  intros record [= <-]. unfold plain_keys, Object_prototype_names.
  repeat (apply Forall_cons_2; [reflexivity|]). apply Forall_nil_2.
Defined.

Lemma no_record_plain_keys :
  ∀ record, props_followerIndex Fixture.new_props = Some record →
            plain_keys record.
Proof. intros record Hrecord. discriminate Hrecord. Defined.

Lemma constructor_seeds_state_witness :
  (∀ record, props_followerIndex Fixture.edit_props = Some record →
             plain_keys record)
  ∧ props_followerIndex Fixture.edit_props = Some Fixture.existing_record
  ∧ (∀ k, followerIndex (constructor Fixture.ext Fixture.edit_props) !! k =
            match Fixture.existing_record !! k with
            | Some v => Some v
            | None => default_field Fixture.ext (VStr []) k
            end)
  ∧ fieldsErrors (constructor Fixture.ext Fixture.edit_props) !! "maxRetryDelay"
    = match registered_validator Fixture.ext "maxRetryDelay" with
      | Some validator =>
          validator <$>
            followerIndex (constructor Fixture.ext Fixture.edit_props)
              !! "maxRetryDelay"
      | None => None
      end
  ∧ (∀ record, props_followerIndex Fixture.new_props = Some record →
               plain_keys record)
  ∧ props_followerIndex Fixture.new_props = None
  ∧ ("remoteCluster" ∉ field <$> advancedSettingsFields Fixture.ext)
  ∧ get (followerIndex (constructor Fixture.ext Fixture.new_props)) "remoteCluster"
    = with_default
        (getRemoteClusterName Fixture.ext (remoteClusters Fixture.new_props)
           (get (extractQueryParams Fixture.ext (location_search Fixture.ext))
                "cluster"))
        (VStr [])
  ∧ (∀ k, followerIndex (constructor Fixture.ext Fixture.new_props) !! k =
            default_field Fixture.ext
              (with_default
                 (getRemoteClusterName Fixture.ext
                    (remoteClusters Fixture.new_props)
                    (get (extractQueryParams Fixture.ext
                            (location_search Fixture.ext)) "cluster"))
                 (VStr []))
              k).
Proof.
  assert (Hnew : props_followerIndex Fixture.new_props = None) by reflexivity.
  assert (Hfree : "remoteCluster" ∉ field <$> advancedSettingsFields Fixture.ext)
    by (apply (bool_decide_unpack _); vm_compute; exact I).
  assert (Hedit : props_followerIndex Fixture.edit_props
                  = Some Fixture.existing_record) by reflexivity.
  destruct (constructor_seeds_state Fixture.ext Fixture.edit_props
              existing_record_plain_keys)
    as (_ & _ & _ & _ & _ & _ & _ & _ & Hrecord & Herrors).
  destruct (constructor_seeds_state Fixture.ext Fixture.new_props
              no_record_plain_keys)
    as (_ & _ & _ & _ & _ & _ & Hcluster & Hdefaults & _ & _).
  split_and!.
  - exact existing_record_plain_keys.
  - exact Hedit.
  - exact (Hrecord Fixture.existing_record Hedit).
  - exact (Herrors "maxRetryDelay").
  - exact no_record_plain_keys.
  - exact Hnew.
  - exact Hfree.
  - exact (Hcluster Hfree Hnew).
  - exact (Hdefaults Hnew).
Defined.

(** The constructed sample forms, field by field, and their errors. *)
Example constructor_fixture_errors :
  fieldsErrors (state Fixture.fresh)
  = {[ "name" := Fixture.message "required";
       "leaderIndex" := Fixture.message "required";
       "maxReadRequestOperationCount" := VNull;
       "maxRetryDelay" := VNull ]}
  ∧ fieldsErrors (state Fixture.editing)
    = {[ "name" := VUndefined;
         "leaderIndex" := VUndefined;
         "maxReadRequestOperationCount" := VNull;
         "maxRetryDelay" := VNull ]}.
Proof. vm_compute. done. Qed.

Example constructor_fixture :
  followerIndex (state Fixture.fresh)
  = {[ "name" := VStr [];
       "remoteCluster" := VStr (str "cluster-a");
       "leaderIndex" := VStr [];
       "maxReadRequestOperationCount" := VStr [];
       "maxRetryDelay" := VStr [] ]}
  ∧ followerIndex (state Fixture.editing)
    = {[ "name" := VStr (str "orders-follower");
         "remoteCluster" := VStr (str "cluster-a");
         "leaderIndex" := VStr (str "orders");
         "maxReadRequestOperationCount" := VStr [];
         "maxRetryDelay" := VNum 500 ]}
  ∧ isNew (state Fixture.fresh) = true
  ∧ isNew (state Fixture.editing) = false.
Proof. vm_compute. done. Qed.

Lemma renderApiErrors_cases_witness :
  truthy (apiError (props Fixture.editing)) = true
  ∧ prop (apiError (props Fixture.editing)) "status" = VNum 404
  ∧ prop (prop (renderApiErrors Fixture.ext Fixture.editing) "props") "error" =
      VObj {[ "data" := VObj {[ "message" :=
        formatMessage Fixture.ext
          {[ "id" := VStr (str "xpack.crossClusterReplication.followerIndexForm.leaderIndexNotFoundError");
             "defaultMessage" := VStr (str "The leader index '{leaderIndex}' you want to replicate from does not exist.") ]}
          (Some {[ "leaderIndex" :=
                     get (followerIndex (state Fixture.editing)) "leaderIndex" ]}) ]} ]}.
Proof.
  assert (Herror : truthy (apiError (props Fixture.editing)) = true)
    by reflexivity.
  assert (Hstatus : prop (apiError (props Fixture.editing)) "status" = VNum 404)
    by reflexivity.
  split_and!; try assumption.
  exact (proj1 (proj2 (renderApiErrors_cases Fixture.ext Fixture.editing))
           Herror Hstatus).
Defined.

(** * The form over its life *)

Section Lifecycle.
Context (ext : Collaborators).
Implicit Types (this : Instance) (s : State) (fields : obj) (e : event).

(** *** What each handler leaves behind *)

Lemma sendForm_after this :
  after ext this (sendForm this) =
    merge_state (state this) (patch_areErrorsVisible (negb (isFormValid this))).
Proof.
  unfold after, handle, sendForm, flush. by destruct (isFormValid this).
Qed.

Lemma onRemoteClusterError_after this (error : value) :
  after ext this (onRemoteClusterError this error) =
    merge_state (state this)
      (patch_fieldsErrors (spread (fieldsErrors (state this))
                                  {[ "remoteCluster" := error ]})).
Proof. done. Qed.

Lemma validateIndexName_resolved_after this (name : value) (indices : list obj) :
  after ext this (validateIndexName ext this name (Resolved indices)) =
    if existsb (λ index, strict_equals (get index "name") name) indices
    then merge_state
           (merge_state (state this)
              (patch_fieldsErrors (spread (fieldsErrors (state this))
                                          {[ "name" := indexAlreadyExistError ]})))
           (patch_isValidatingIndexName false)
    else merge_state (state this) (patch_isValidatingIndexName false).
Proof.
  unfold after, handle, validateIndexName, flush.
  by destruct (existsb _ indices).
Qed.

(** The indicator that [onIndexNameChange] sets, if it gets that far. *)
Lemma onIndexNameChange_after this (name : value) :
  after ext this (onIndexNameChange ext this name) =
    let edited := after ext this (onFieldsChange ext this {[ "name" := name ]}) in
    if negb (truthy name)
    then merge_state edited (patch_isValidatingIndexName false)
    else match name with
         | VStr s =>
             merge_state edited
               (patch_isValidatingIndexName (truthy (VStr (trim s))))
         | _ => edited
         end.
Proof.
  unfold after, handle, onIndexNameChange, onFieldsChange, flush, state_fields.
  destruct name as [| |b|n|s|o]; simpl;
    try by destruct (truthy (apiError (props this))).
  - destruct b; simpl; by destruct (truthy (apiError (props this))).
  - destruct (negb (n =? 0)); simpl; by destruct (truthy (apiError (props this))).
  - destruct s as [|c s]; simpl; [by destruct (truthy (apiError (props this)))|].
    destruct (trim (c :: s)); simpl; by destruct (truthy (apiError (props this))).
Qed.

(** *** Every event is a merge *)

Lemma spread_empty (a : obj) : spread a ∅ = a.
Proof. unfold spread. apply (left_id_L ∅ (∪)). Qed.

Lemma getFieldsErrors_empty : getFieldsErrors ext ∅ = ∅.
Proof. apply map_eq. intros k. rewrite lookup_getFieldsErrors, !lookup_empty.
  by destruct (validator_for ext k). Qed.

Lemma step_record this e :
  followerIndex (state (step ext this e)) =
    spread (followerIndex (state this)) (edit_of ext this e).
Proof.
  destruct e as [fields|name|name r|remoteCluster|error| | |p];
    unfold step, instance_after; simpl edit_of; rewrite ?spread_empty.
  - fold (after ext this (onFieldsChange ext this fields)).
    by rewrite onFieldsChange_after.
  - fold (after ext this (onIndexNameChange ext this name)).
    rewrite onIndexNameChange_after, onFieldsChange_after. simpl.
    destruct (negb (truthy name)); [done|]. by destruct name.
  - fold (after ext this (validateIndexName ext this name r)).
    destruct r as [indices|error].
    + rewrite validateIndexName_resolved_after. by destruct (existsb _ indices).
    + rewrite validateIndexName_rejected_after. by destruct (_ && _).
  - fold (after ext this (onClusterChange ext this remoteCluster)).
    unfold onClusterChange. by rewrite onFieldsChange_after.
  - done.
  - fold (after ext this (toggleAdvancedSettings this)).
    destruct (areAdvancedSettingsVisible (state this)) eqn:Hvisible.
    + by rewrite toggle_hides.
    + by rewrite toggle_shows.
  - fold (after ext this (sendForm this)). by rewrite sendForm_after.
  - done.
Qed.

Lemma step_errors this e :
  fieldsErrors (state (step ext this e)) =
    spread (spread (fieldsErrors (state this))
                   (getFieldsErrors ext (edit_of ext this e)))
           (stored_error e).
Proof.
  destruct e as [fields|name|name r|remoteCluster|error| | |p];
    unfold step, instance_after; simpl edit_of; simpl stored_error;
    rewrite ?getFieldsErrors_empty, ?spread_empty.
  - fold (after ext this (onFieldsChange ext this fields)).
    by rewrite onFieldsChange_after.
  - fold (after ext this (onIndexNameChange ext this name)).
    rewrite onIndexNameChange_after, onFieldsChange_after. simpl.
    destruct (negb (truthy name)); [done|]. by destruct name.
  - fold (after ext this (validateIndexName ext this name r)).
    destruct r as [indices|error].
    + rewrite validateIndexName_resolved_after.
      destruct (existsb _ indices); by rewrite ?spread_empty.
    + rewrite validateIndexName_rejected_after, spread_empty.
      by destruct (_ && _).
  - fold (after ext this (onClusterChange ext this remoteCluster)).
    unfold onClusterChange. by rewrite onFieldsChange_after.
  - done.
  - fold (after ext this (toggleAdvancedSettings this)).
    destruct (areAdvancedSettingsVisible (state this)) eqn:Hvisible.
    + by rewrite toggle_hides.
    + by rewrite toggle_shows.
  - fold (after ext this (sendForm this)). by rewrite sendForm_after.
  - done.
Qed.

(** *** Validation of merged objects *)

(** X1. Validating a merged object is merging the validations: the errors
    of [{...a, ...b}] are those of [a] overridden by those of [b]; the
    empty object has no errors; and only fields of the object get an
    entry. *)
Theorem getFieldsErrors_spread (a b : obj) :
  getFieldsErrors ext (spread a b) =
    spread (getFieldsErrors ext a) (getFieldsErrors ext b)
  ∧ getFieldsErrors ext ∅ = ∅
  ∧ (∀ k, a !! k = None → getFieldsErrors ext a !! k = None).
Proof.
  split_and!.
  - apply map_eq. intros k.
    rewrite lookup_spread, !lookup_getFieldsErrors, lookup_spread.
    destruct (validator_for ext k); [|done].
    by destruct (b !! k), (a !! k).
  - apply getFieldsErrors_empty.
  - intros k Hk. rewrite lookup_getFieldsErrors, Hk.
    by destruct (validator_for ext k).
Qed.

Lemma getFieldsErrors_merge (a b : obj) :
  getFieldsErrors ext (spread a b) =
    spread (getFieldsErrors ext a) (getFieldsErrors ext b).
Proof.
  apply map_eq. intros k.
  rewrite lookup_spread, !lookup_getFieldsErrors, lookup_spread.
  destruct (validator_for ext k); [|done].
  by destruct (b !! k), (a !! k).
Qed.

Lemma spread_assoc (a b c : obj) : spread (spread a b) c = spread a (spread b c).
Proof. unfold spread. by rewrite (assoc_L (∪)). Qed.

(** X2. Two edits in a row leave the state that the one merged edit
    leaves, so repeating an edit changes nothing more. *)
Theorem edits_compose this (first second : obj) :
  state (run ext this [FieldsChange first; FieldsChange second]) =
    state (step ext this (FieldsChange (spread first second)))
  ∧ state (run ext this [FieldsChange first; FieldsChange first]) =
      state (step ext this (FieldsChange first)).
Proof.
  assert (Htwo : ∀ f g,
    state (run ext this [FieldsChange f; FieldsChange g]) =
      state (step ext this (FieldsChange (spread f g)))).
  { intros f g. unfold run. simpl. unfold instance_after.
    fold (after ext this (onFieldsChange ext this (spread f g))).
    fold (after ext this (onFieldsChange ext this f)).
    set (this' := (handle ext this (onFieldsChange ext this f)).1.1).
    fold (after ext this' (onFieldsChange ext this' g)).
    rewrite !onFieldsChange_after.
    assert (Hstate : state this' = after ext this (onFieldsChange ext this f))
      by done.
    rewrite Hstate, onFieldsChange_after. simpl.
    by rewrite getFieldsErrors_merge, !spread_assoc. }
  split; [apply Htwo|].
  rewrite Htwo. do 3 f_equal. unfold spread. apply (idemp_L (∪)).
Qed.

(** *** What holds of every mounted form *)

Lemma run_snoc this (events : list event) e :
  run ext this (events ++ [e]) = step ext (run ext this events) e.
Proof. unfold run. by rewrite foldl_app. Qed.

Lemma run_app this (events1 events2 : list event) :
  run ext this (events1 ++ events2) = run ext (run ext this events1) events2.
Proof. unfold run. by rewrite foldl_app. Qed.

Lemma stored_error_lookup e (k : string) (x : value) :
  stored_error e !! k = Some x →
  (k = "name" ∧ x = indexAlreadyExistError) ∨ k = "remoteCluster".
Proof.
  destruct e as [| |name [indices|]| |error| | |]; simpl;
    rewrite ?lookup_empty; try done.
  - destruct (existsb _ indices); rewrite ?lookup_empty; [|done].
    intros Hx. apply lookup_singleton_Some in Hx as [<- <-]. by left.
  - intros Hx. apply lookup_singleton_Some in Hx as [<- _]. by right.
Qed.

Lemma step_cache this e :
  cachedAdvancedSettings (state (step ext this e)) =
    match e with
    | ToggleAdvancedSettings =>
        if areAdvancedSettingsVisible (state this)
        then Some (newCachedAdvancedSettings ext (followerIndex (state this)))
        else Some ∅
    | _ => cachedAdvancedSettings (state this)
    end.
Proof.
  destruct e as [fields|name|name r|remoteCluster|error| | |p];
    unfold step, instance_after.
  - fold (after ext this (onFieldsChange ext this fields)).
    by rewrite onFieldsChange_after.
  - fold (after ext this (onIndexNameChange ext this name)).
    rewrite onIndexNameChange_after, onFieldsChange_after. simpl.
    destruct (negb (truthy name)); [done|]. by destruct name.
  - fold (after ext this (validateIndexName ext this name r)).
    destruct r as [indices|error].
    + rewrite validateIndexName_resolved_after. by destruct (existsb _ indices).
    + rewrite validateIndexName_rejected_after. by destruct (_ && _).
  - fold (after ext this (onClusterChange ext this remoteCluster)).
    unfold onClusterChange. by rewrite onFieldsChange_after.
  - done.
  - fold (after ext this (toggleAdvancedSettings this)).
    destruct (areAdvancedSettingsVisible (state this)) eqn:Hvisible.
    + by rewrite toggle_hides.
    + by rewrite toggle_shows.
  - fold (after ext this (sendForm this)). by rewrite sendForm_after.
  - done.
Qed.

Lemma mount_errors_follow_validators (p : Props) :
  errors_follow_validators ext (state (mount ext p)).
Proof.
  intros k f _ Hf. left. simpl. by rewrite lookup_getFieldsErrors, Hf.
Qed.

Lemma step_errors_follow_validators this e :
  errors_follow_validators ext (state this) →
  errors_follow_validators ext (state (step ext this e)).
Proof.
  intros Hinv k f Hk Hf.
  rewrite step_errors, step_record, !lookup_spread, lookup_getFieldsErrors, Hf.
  destruct (stored_error e !! k) as [x|] eqn:Hstored.
  - apply stored_error_lookup in Hstored as [[-> ->]| ->]; [by right|done].
  - destruct (edit_of ext this e !! k) as [v|]; [by left|].
    simpl. by apply Hinv.
Qed.

Lemma mount_has_default_keys (p : Props) :
  has_default_keys ext (state (mount ext p)).
Proof.
  intros k Hk. simpl.
  destruct (props_followerIndex p) as [record|]; simpl.
  - rewrite lookup_spread. by destruct (record !! k).
  - unfold getEmptyFollowerIndex in *.
    rewrite lookup_spread in *.
    destruct (emptyAdvancedSettings ext !! k); [done|].
    destruct Hk as [v Hv].
    apply lookup_insert_Some in Hv as [[<- _]|[? Hv]]; [by simplify_map_eq|].
    apply lookup_insert_Some in Hv as [[<- _]|[? Hv]]; [by simplify_map_eq|].
    apply lookup_singleton_Some in Hv as [<- _]. by simplify_map_eq.
Qed.

Lemma step_has_default_keys this e :
  has_default_keys ext (state this) →
  has_default_keys ext (state (step ext this e)).
Proof.
  intros Hinv k Hk. rewrite step_record, lookup_spread.
  destruct (edit_of ext this e !! k); [done|]. by apply Hinv.
Qed.

Lemma mount_cache_holds_set_fields (p : Props) :
  cache_holds_set_fields ext (state (mount ext p)).
Proof. intros cache k v Hcache. done. Qed.

Lemma step_cache_holds_set_fields this e :
  cache_holds_set_fields ext (state this) →
  cache_holds_set_fields ext (state (step ext this e)).
Proof.
  intros Hinv cache k v. rewrite step_cache.
  destruct e; try apply Hinv.
  destruct (areAdvancedSettingsVisible (state this)).
  - intros [= <-]. rewrite lookup_newCachedAdvancedSettings.
    case_decide; [|done].
    destruct (strict_equals _ _) eqn:E; [done|].
    intros [= <-]. split; [done|].
    intros Hempty. apply strict_equals_empty in Hempty. congruence.
  - intros [= <-]. by rewrite lookup_empty.
Qed.

(** X3. In every state that a mounted form can reach, the stored error of
    a field with a registered validator is the validator's verdict on the
    field's current value; the one exception is the error that the name
    check stores under [name] ([remoteCluster], whose error the
    remote-cluster field reports, is not covered). *)
Theorem mounted_errors_follow_validators (p : Props) (events : list event) :
  errors_follow_validators ext (state (run ext (mount ext p) events)).
Proof.
  induction events as [|e events IH] using rev_ind.
  - apply mount_errors_follow_validators.
  - rewrite run_snoc. by apply step_errors_follow_validators.
Qed.

(** X4. In every state that a mounted form can reach, the record has all
    the keys of the empty defaults: no event removes a field. *)
Theorem mounted_has_default_keys (p : Props) (events : list event) :
  has_default_keys ext (state (run ext (mount ext p) events)).
Proof.
  induction events as [|e events IH] using rev_ind.
  - apply mount_has_default_keys.
  - rewrite run_snoc. by apply step_has_default_keys.
Qed.

(** X5. In every state that a mounted form can reach, the cache of
    advanced settings holds only advanced-setting fields, each with a value
    other than ['']. *)
Theorem mounted_cache_holds_set_fields (p : Props) (events : list event) :
  cache_holds_set_fields ext (state (run ext (mount ext p) events)).
Proof.
  induction events as [|e events IH] using rev_ind.
  - apply mount_cache_holds_set_fields.
  - rewrite run_snoc. by apply step_cache_holds_set_fields.
Qed.

(** *** The error of the name check *)

Lemma edit_of_name this e :
  "name" ∉ field <$> advancedSettingsFields ext →
  cache_holds_set_fields ext (state this) →
  ¬ edits_name e →
  edit_of ext this e !! "name" = None.
Proof.
  intros Hname Hcache Hedit.
  destruct e as [fields|name|name r|remoteCluster|error| | |p]; simpl in *;
    try apply lookup_empty.
  - by apply eq_None_not_Some.
  - done.
  - by rewrite lookup_singleton_ne.
  - destruct (areAdvancedSettingsVisible (state this)).
    + rewrite lookup_emptyAdvancedSettings. by rewrite decide_False.
    + destruct (cachedAdvancedSettings (state this)) as [cache|] eqn:Hc;
        simpl; [|apply lookup_empty].
      destruct (cache !! "name") as [v|] eqn:Hv; [|done].
      by destruct (Hcache cache "name" v Hc Hv).
Qed.

Lemma step_keeps_name_check_error this e :
  "name" ∉ field <$> advancedSettingsFields ext →
  cache_holds_set_fields ext (state this) →
  ¬ edits_name e →
  fieldsErrors (state this) !! "name" = Some indexAlreadyExistError →
  fieldsErrors (state (step ext this e)) !! "name" = Some indexAlreadyExistError.
Proof.
  intros Hname Hcache Hedit Herror.
  rewrite step_errors, !lookup_spread, lookup_getFieldsErrors.
  rewrite edit_of_name by done.
  destruct (stored_error e !! "name") as [x|] eqn:Hstored.
  - apply stored_error_lookup in Hstored as [[_ ->]|?]; done.
  - by destruct (validator_for ext "name").
Qed.

Lemma run_keeps_name_check_error this (events : list event) :
  "name" ∉ field <$> advancedSettingsFields ext →
  cache_holds_set_fields ext (state this) →
  Forall (λ e, ¬ edits_name e) events →
  fieldsErrors (state this) !! "name" = Some indexAlreadyExistError →
  fieldsErrors (state (run ext this events)) !! "name"
  = Some indexAlreadyExistError
  ∧ cache_holds_set_fields ext (state (run ext this events)).
Proof.
  intros Hname Hcache Hevents Herror.
  induction events as [|e events IH] using rev_ind; [done|].
  apply Forall_app in Hevents as [Hevents He].
  apply Forall_inv in He.
  destruct (IH Hevents) as [IHerror IHcache].
  rewrite run_snoc. split.
  - by apply step_keeps_name_check_error.
  - by apply step_cache_holds_set_fields.
Qed.

(** X6. Once the name check has found an index of the checked name, the
    form stays invalid and [sendForm()] saves nothing, whatever happens to
    the form, until the [name] field is edited.  ([name] is not the field
    of an advanced setting.) *)
Theorem collision_blocks_save (p : Props) (before : list event)
    (name : jsstring) (indices : list obj) (later : list event) :
  "name" ∉ field <$> advancedSettingsFields ext →
  (∃ index, index ∈ indices ∧ get index "name" = VStr name) →
  Forall (λ e, ¬ edits_name e) later →
  fieldsErrors
    (state (run ext (mount ext p)
              (before ++ IndexNameChecked (VStr name) (Resolved indices) :: later)))
    !! "name" = Some indexAlreadyExistError
  ∧ calls_during ext
      (run ext (mount ext p)
         (before ++ IndexNameChecked (VStr name) (Resolved indices) :: later))
      (sendForm
         (run ext (mount ext p)
            (before ++ IndexNameChecked (VStr name) (Resolved indices) :: later)))
    = [].
Proof.
  intros Hname Hexists Hlater.
  apply doesExist_true in Hexists.
  set (this := run ext (mount ext p)
                 (before ++ IndexNameChecked (VStr name) (Resolved indices) :: later)).
  assert (Herror : fieldsErrors (state this) !! "name" = Some indexAlreadyExistError).
  { subst this. rewrite (cons_middle _ before later), (assoc_L (++)), run_app.
    apply run_keeps_name_check_error; try done.
    - induction (before ++ [_]) as [|e events IH] using rev_ind.
      + apply mount_cache_holds_set_fields.
      + rewrite run_snoc. by apply step_cache_holds_set_fields.
    - rewrite run_snoc, step_errors. simpl stored_error. rewrite Hexists.
      by rewrite lookup_spread, lookup_singleton_eq. }
  split; [done|].
  rewrite sendForm_calls.
  destruct (isFormValid this) eqn:Hvalid; [|done].
  apply isFormValid_true in Hvalid.
  by destruct (Hvalid "name" indexAlreadyExistError Herror).
Qed.

(** X7. Editing the name through [onIndexNameChange] replaces whatever
    error is stored under [name], the error of the name check included, by
    the verdict of [indexNameValidator] on the new name; this holds also
    when the handler throws on a name that is not a string.  ([name] is
    not the field of an advanced setting.) *)
Theorem name_edit_revalidates this (name : value) :
  "name" ∉ field <$> advancedSettingsFields ext →
  fieldsErrors (state (step ext this (IndexNameChange name))) !! "name"
  = Some (indexNameValidator ext name)
  ∧ followerIndex (state (step ext this (IndexNameChange name))) !! "name"
    = Some name.
Proof.
  intros Hname.
  rewrite step_errors, step_record, !lookup_spread, lookup_getFieldsErrors.
  rewrite validator_for_builtin by done. simpl.
  by rewrite lookup_empty, lookup_singleton_eq.
Qed.

(** *** Advanced settings over the life of a form *)

(** X8. Showing the advanced settings while no cache has been stored yet
    (the constructor stores none, so this is the first toggle of a new
    form) changes no field and no field error.  Of the state it changes
    two things, the section becomes visible and an empty cache is stored;
    and, going through [onFieldsChange], it invokes [clearApiError] when an
    API error is pending, and nothing otherwise. *)
Theorem first_show_changes_no_field this :
  areAdvancedSettingsVisible (state this) = false →
  cachedAdvancedSettings (state this) = None →
  after ext this (toggleAdvancedSettings this) =
    {| isNew := isNew (state this);
       followerIndex := followerIndex (state this);
       fieldsErrors := fieldsErrors (state this);
       areErrorsVisible := areErrorsVisible (state this);
       areAdvancedSettingsVisible := true;
       isValidatingIndexName := isValidatingIndexName (state this);
       cachedAdvancedSettings := Some ∅ |}
  ∧ (truthy (apiError (props this)) = true →
       calls_during ext this (toggleAdvancedSettings this) = [ClearApiError])
  ∧ (truthy (apiError (props this)) = false →
       calls_during ext this (toggleAdvancedSettings this) = []).
Proof.
  intros Hhidden Hcache. split_and!.
  - rewrite toggle_shows by done. rewrite Hcache. simpl.
    by rewrite getFieldsErrors_empty, !spread_empty.
  - intros Hpending. unfold calls_during, handle, toggleAdvancedSettings, flush.
    simpl. unfold toggleAdvancedSettingsUpdater, onFieldsChange.
    by rewrite Hhidden, Hpending.
  - intros Hnone. unfold calls_during, handle, toggleAdvancedSettings, flush.
    simpl. unfold toggleAdvancedSettingsUpdater, onFieldsChange.
    by rewrite Hhidden, Hnone.
Qed.

Lemma mounted_invariants (p : Props) (events : list event) :
  has_default_keys ext (state (run ext (mount ext p) events))
  ∧ errors_follow_validators ext (state (run ext (mount ext p) events))
  ∧ cache_holds_set_fields ext (state (run ext (mount ext p) events)).
Proof.
  induction events as [|e events (IHkeys & IHerrors & IHcache)] using rev_ind.
  - split_and!;
      [apply mount_has_default_keys | apply mount_errors_follow_validators
      | apply mount_cache_holds_set_fields].
  - rewrite run_snoc. split_and!;
      [by apply step_has_default_keys | by apply step_errors_follow_validators
      | by apply step_cache_holds_set_fields].
Qed.

Lemma advanced_field_is_default_key (k : string) :
  k ∈ field <$> advancedSettingsFields ext →
  is_Some (getEmptyFollowerIndex ext VUndefined !! k).
Proof.
  intros Hk. unfold getEmptyFollowerIndex.
  rewrite lookup_spread, lookup_emptyAdvancedSettings, decide_True by done.
  by eexists.
Qed.

Lemma get_empty_string (o : obj) (k : string) :
  get o k = VStr [] → o !! k = Some (VStr []).
Proof. unfold get. by destruct (o !! k) as [v|]; simpl; [intros ->|]. Qed.

Lemma get_present (o : obj) (k : string) :
  is_Some (o !! k) → o !! k = Some (get o k).
Proof. unfold get. by intros [v ->]. Qed.

(** X9. On a mounted form, hiding the advanced settings and showing them
    again, with nothing in between, gives back the record exactly, key by
    key; and the field errors too, when neither [name] nor [remoteCluster]
    is the field of an advanced setting. *)
Theorem mounted_hide_then_show_round_trip (p : Props) (events : list event) :
  areAdvancedSettingsVisible (state (run ext (mount ext p) events)) = true →
  followerIndex (state (hide_then_show ext (run ext (mount ext p) events)))
    = followerIndex (state (run ext (mount ext p) events))
  ∧ ("name" ∉ field <$> advancedSettingsFields ext →
     "remoteCluster" ∉ field <$> advancedSettingsFields ext →
     fieldsErrors (state (hide_then_show ext (run ext (mount ext p) events)))
     = fieldsErrors (state (run ext (mount ext p) events))).
Proof.
  destruct (mounted_invariants p events) as (Hkeys & Herrors & _).
  set (this := run ext (mount ext p) events) in *.
  intros Hvisible.
  assert (Hhidden : state (hidden ext this)
                    = after ext this (toggleAdvancedSettings this)) by done.
  assert (Hshown : state (hide_then_show ext this)
                   = after ext (hidden ext this)
                       (toggleAdvancedSettings (hidden ext this))) by done.
  rewrite toggle_hides in Hhidden by done.
  rewrite toggle_shows in Hshown by (by rewrite Hhidden).
  rewrite Hshown, Hhidden. simpl. split.
  - apply map_eq. intros k.
    rewrite !lookup_spread, lookup_newCachedAdvancedSettings,
      lookup_emptyAdvancedSettings.
    destruct (decide (k ∈ field <$> advancedSettingsFields ext)) as [Hk|Hk];
      [|done].
    destruct (strict_equals (get (followerIndex (state this)) k) (VStr [])) eqn:E.
    + apply strict_equals_empty in E. symmetry. by apply get_empty_string.
    + symmetry. by apply get_present, Hkeys, advanced_field_is_default_key.
  - intros Hname Hcluster. apply map_eq. intros k.
    rewrite !lookup_spread, !lookup_getFieldsErrors,
      lookup_newCachedAdvancedSettings, lookup_emptyAdvancedSettings.
    destruct (validator_for ext k) as [f|] eqn:Hf; [|done].
    destruct (decide (k ∈ field <$> advancedSettingsFields ext)) as [Hk|Hk];
      [|done].
    assert (Hstored : fieldsErrors (state this) !! k
                      = f <$> followerIndex (state this) !! k).
    { destruct (Herrors k f) as [Hcurrent|[-> _]]; [congruence|done|done|done]. }
    rewrite Hstored.
    destruct (strict_equals (get (followerIndex (state this)) k) (VStr [])) eqn:E.
    + apply strict_equals_empty, get_empty_string in E. by rewrite E.
    + simpl. by rewrite (get_present (followerIndex (state this)) k)
        by apply Hkeys, advanced_field_is_default_key, Hk.
Qed.

(** *** Names that are not strings, and rejected checks *)

Lemma onIndexNameChange_calls this (name : value) :
  calls_during ext this (onIndexNameChange ext this name) =
    (if truthy (apiError (props this)) then [ClearApiError] else [])
    ++ match name with
       | VStr s => if truthy (VStr (trim s)) then [ValidateIndexName name] else []
       | _ => []
       end.
Proof.
  unfold calls_during, handle, onIndexNameChange, onFieldsChange, flush.
  destruct name as [| |b|n|s|o]; simpl;
    try by destruct (truthy (apiError (props this))).
  - destruct b; simpl; by destruct (truthy (apiError (props this))).
  - destruct (negb (n =? 0)); simpl; by destruct (truthy (apiError (props this))).
  - destruct s as [|c s]; simpl; [by destruct (truthy (apiError (props this)))|].
    destruct (trim (c :: s)); simpl; by destruct (truthy (apiError (props this))).
Qed.

Lemma onIndexNameChange_completion this (name : value) :
  completion_of ext this (onIndexNameChange ext this name) =
    if negb (truthy name) then Returned
    else match name with VStr _ => Returned | _ => ThrewTypeError end.
Proof.
  unfold completion_of, handle, onIndexNameChange, onFieldsChange, flush.
  destruct name as [| |b|n|s|o]; simpl;
    try by destruct (truthy (apiError (props this))).
  - destruct b; simpl; by destruct (truthy (apiError (props this))).
  - destruct (negb (n =? 0)); simpl; by destruct (truthy (apiError (props this))).
  - destruct s as [|c s]; simpl; [by destruct (truthy (apiError (props this)))|].
    destruct (trim (c :: s)); simpl; by destruct (truthy (apiError (props this))).
Qed.

(** X10. [onIndexNameChange] with a name that is not a string: the edit
    is stored in the record all the same and no check is invoked.  A falsy
    name ([undefined], [null], [false], [0]) ends with the validating
    indicator false; a truthy one makes [name.trim()] throw, after the
    edit, and leaves the indicator as it was. *)
Theorem onIndexNameChange_not_a_string this (name : value) :
  (∀ s : jsstring, name ≠ VStr s) →
  followerIndex (after ext this (onIndexNameChange ext this name)) !! "name"
    = Some name
  ∧ (∀ checked, ValidateIndexName checked ∉
                  calls_during ext this (onIndexNameChange ext this name))
  ∧ (truthy name = false →
       completion_of ext this (onIndexNameChange ext this name) = Returned
       ∧ isValidatingIndexName (after ext this (onIndexNameChange ext this name))
         = false)
  ∧ (truthy name = true →
       completion_of ext this (onIndexNameChange ext this name) = ThrewTypeError
       ∧ isValidatingIndexName (after ext this (onIndexNameChange ext this name))
         = isValidatingIndexName (state this)).
Proof.
  intros Hname.
  rewrite onIndexNameChange_calls, onIndexNameChange_completion,
    onIndexNameChange_after, onFieldsChange_after.
  split_and!.
  - destruct name as [| |b|n|s|o]; try (by destruct (Hname s)); simpl;
      try by rewrite lookup_spread, lookup_singleton_eq.
    + destruct b; simpl; by rewrite lookup_spread, lookup_singleton_eq.
    + destruct (negb (n =? 0)); simpl; by rewrite lookup_spread, lookup_singleton_eq.
  - intros checked Hin. apply elem_of_app in Hin as [Hin|Hin].
    + destruct (truthy (apiError (props this)));
        [by apply list_elem_of_singleton in Hin|by apply elem_of_nil in Hin].
    + destruct name as [| |b|n|s|o]; try (by apply elem_of_nil in Hin).
      by destruct (Hname s).
  - intros ->. done.
  - intros Htruthy. rewrite Htruthy. simpl.
    destruct name as [| |b|n|s|o]; try done. by destruct (Hname s).
Qed.

(** X11. When the fetch of the name check is rejected, the record and the
    field errors are left as they were and the error goes to [fatalError]
    with the translated title.  The validating indicator is cleared when
    the error is truthy and has a truthy [data]; otherwise it stays as it
    was. *)
Theorem validateIndexName_rejected this (name error : value) :
  calls_during ext this (validateIndexName ext this name (Rejected error))
    = [FatalError error (indexNameValidationFatalErrorTitle ext)]
  ∧ followerIndex (after ext this (validateIndexName ext this name (Rejected error)))
    = followerIndex (state this)
  ∧ fieldsErrors (after ext this (validateIndexName ext this name (Rejected error)))
    = fieldsErrors (state this)
  ∧ (truthy error = true → truthy (prop error "data") = true →
       isValidatingIndexName
         (after ext this (validateIndexName ext this name (Rejected error)))
       = false)
  ∧ (truthy error = false ∨ truthy (prop error "data") = false →
       isValidatingIndexName
         (after ext this (validateIndexName ext this name (Rejected error)))
       = isValidatingIndexName (state this)).
Proof.
  rewrite validateIndexName_rejected_calls, validateIndexName_rejected_after.
  split_and!; try done.
  - by destruct (_ && _).
  - by destruct (_ && _).
  - by intros -> ->.
  - intros [-> | ->]; [done|]. by rewrite andb_false_r.
Qed.

(** *** Where the outgoing calls come from *)

Lemma toggleAdvancedSettings_calls this :
  calls_during ext this (toggleAdvancedSettings this) =
    if truthy (apiError (props this)) then [ClearApiError] else [].
Proof.
  unfold calls_during, handle, toggleAdvancedSettings, flush. simpl.
  unfold toggleAdvancedSettingsUpdater, onFieldsChange.
  destruct (areAdvancedSettingsVisible (state this));
    by destruct (truthy (apiError (props this))).
Qed.

Lemma validateIndexName_resolved_calls this (name : value) (indices : list obj) :
  calls_during ext this (validateIndexName ext this name (Resolved indices)) = [].
Proof.
  unfold calls_during, handle, validateIndexName, flush.
  by destruct (existsb _ indices).
Qed.

(** X12. Each call that leaves the component has one origin.
    [saveFollowerIndex] is invoked only by [sendForm] on a form without
    field errors, with the name and the record without its [name] key;
    [clearApiError] only by an event that goes through [onFieldsChange]
    while an API error is pending; [fatalError] only by a rejected name
    check, with the rejection error; and the debounced check only by
    [onIndexNameChange], with a string name that is not blank. *)
Theorem calls_have_one_origin this e (c : call) :
  c ∈ step_calls ext this e →
  match c with
  | SaveFollowerIndex name rest =>
      e = SendForm ∧ no_field_error (state this)
      ∧ name = get (followerIndex (state this)) "name"
      ∧ rest = delete "name" (followerIndex (state this))
  | ClearApiError =>
      changes_fields e ∧ truthy (apiError (props this)) = true
  | FatalError error title =>
      (∃ name, e = IndexNameChecked name (Rejected error))
      ∧ title = indexNameValidationFatalErrorTitle ext
  | ValidateIndexName name =>
      e = IndexNameChange name ∧ ∃ s : jsstring, name = VStr s ∧ ¬ only_whitespace s
  end.
Proof.
  assert (Hclear : ∀ c', c' ∈
            (if truthy (apiError (props this)) then [ClearApiError] else []) →
            c' = ClearApiError ∧ truthy (apiError (props this)) = true).
  { intros c'. destruct (truthy (apiError (props this)));
      [by intros ->%list_elem_of_singleton|by intros ?%elem_of_nil]. }
  destruct e as [fields|name|name [indices|error]|remoteCluster|error| | |p];
    cbn [step_calls].
  - rewrite onFieldsChange_calls. by intros [-> ?]%Hclear.
  - rewrite onIndexNameChange_calls.
    intros [[-> ?]%Hclear|Hin]%elem_of_app; [done|].
    destruct name as [| |b|n|s|o]; try (by apply elem_of_nil in Hin).
    destruct (truthy (VStr (trim s))) eqn:Htrim; [|by apply elem_of_nil in Hin].
    apply list_elem_of_singleton in Hin as ->.
    split; [done|]. exists s. split; [done|].
    intros Hblank. apply trim_nil in Hblank. by rewrite Hblank in Htrim.
  - rewrite validateIndexName_resolved_calls. by intros ?%elem_of_nil.
  - rewrite validateIndexName_rejected_calls.
    intros ->%list_elem_of_singleton. split; [by exists name|done].
  - unfold onClusterChange. rewrite onFieldsChange_calls. by intros [-> ?]%Hclear.
  - by intros ?%elem_of_nil.
  - rewrite toggleAdvancedSettings_calls. by intros [-> ?]%Hclear.
  - rewrite sendForm_calls.
    destruct (isFormValid this) eqn:Hvalid; [|by intros ?%elem_of_nil].
    intros ->%list_elem_of_singleton.
    split_and!; try done. by apply isFormValid_true.
  - by intros ?%elem_of_nil.
Qed.

(** *** Submitting, hidden settings and the reveal flag *)

(** X16. What is saved while the advanced settings are hidden: if
    [sendForm()] saves right after the settings were hidden, every
    advanced-setting field of the saved record holds [''], whatever it
    held before.  ([name] is taken out of the record, so it is left
    aside.) *)
Theorem hidden_settings_are_saved_empty this (name : value) (rest : obj)
    (k : string) :
  areAdvancedSettingsVisible (state this) = true →
  k ∈ field <$> advancedSettingsFields ext →
  k ≠ "name" →
  SaveFollowerIndex name rest ∈
    calls_during ext (hidden ext this) (sendForm (hidden ext this)) →
  rest !! k = Some (VStr []).
Proof.
  intros Hvisible Hk Hname Hsave.
  rewrite sendForm_calls in Hsave.
  destruct (isFormValid (hidden ext this)); [|by apply elem_of_nil in Hsave].
  apply list_elem_of_singleton in Hsave. injection Hsave as _ ->.
  rewrite lookup_delete_ne by done.
  assert (Hhidden : state (hidden ext this)
                    = after ext this (toggleAdvancedSettings this)) by done.
  rewrite Hhidden, toggle_hides by done. simpl.
  by rewrite lookup_spread, lookup_emptyAdvancedSettings, decide_True.
Qed.

Lemma step_areErrorsVisible this e :
  areErrorsVisible (state (step ext this e)) =
    match e with
    | SendForm => negb (isFormValid this)
    | _ => areErrorsVisible (state this)
    end.
Proof.
  destruct e as [fields|name|name r|remoteCluster|error| | |p];
    unfold step, instance_after.
  - fold (after ext this (onFieldsChange ext this fields)).
    by rewrite onFieldsChange_after.
  - fold (after ext this (onIndexNameChange ext this name)).
    rewrite onIndexNameChange_after, onFieldsChange_after. simpl.
    destruct (negb (truthy name)); [done|]. by destruct name.
  - fold (after ext this (validateIndexName ext this name r)).
    destruct r as [indices|error].
    + rewrite validateIndexName_resolved_after. by destruct (existsb _ indices).
    + rewrite validateIndexName_rejected_after. by destruct (_ && _).
  - fold (after ext this (onClusterChange ext this remoteCluster)).
    unfold onClusterChange. by rewrite onFieldsChange_after.
  - done.
  - fold (after ext this (toggleAdvancedSettings this)).
    destruct (areAdvancedSettingsVisible (state this)) eqn:Hvisible.
    + by rewrite toggle_hides.
    + by rewrite toggle_shows.
  - fold (after ext this (sendForm this)). by rewrite sendForm_after.
  - done.
Qed.

(** X17. Field errors are revealed only by a submit attempt: as long as
    [sendForm] has not run on a mounted form, [areErrorsVisible] is false,
    whatever was edited, toggled or checked. *)
Theorem errors_hidden_before_first_submit (p : Props) (events : list event) :
  SendForm ∉ events →
  areErrorsVisible (state (run ext (mount ext p) events)) = false.
Proof.
  induction events as [|e events IH] using rev_ind; intros Hnone; [done|].
  rewrite not_elem_of_app, not_elem_of_cons in Hnone.
  destruct Hnone as [Hevents [He _]].
  rewrite run_snoc, step_areErrorsVisible.
  destruct e; try (by apply IH). done.
Qed.

End Lifecycle.

(** * The warning and the actions *)

Section RenderingProperties.
Context (ext : Collaborators) (r : Rendering).
Implicit Types (this : Instance).

Lemma isFormValid_after_sendForm this :
  isFormValid (instance_after ext this (sendForm this)) = isFormValid this.
Proof.
  unfold isFormValid, instance_after.
  fold (after ext this (sendForm this)). by rewrite sendForm_after.
Qed.

(** X13. While no save is in flight, the first action is the Save button
    (its [onClick] is [this.sendForm]), and it is rendered disabled
    exactly when the warning is rendered; then [sendForm()] would save
    nothing.  On a form without field errors the button is enabled and
    there is no warning, whatever [areErrorsVisible] is. *)
Theorem save_disabled_iff_warning this :
  strict_equals (apiStatus (props this)) (API_STATUS_SAVING r) = false →
  prop (prop (item_child (renderActions r this) "0") "props") "onClick"
    = this_sendForm r
  ∧ (prop (prop (item_child (renderActions r this) "0") "props") "disabled"
       = VBool true
     ↔ renderFormErrorWarning this ≠ VNull)
  ∧ (prop (prop (item_child (renderActions r this) "0") "props") "disabled"
       = VBool true →
     calls_during ext this (sendForm this) = [])
  ∧ (no_field_error (state this) →
     prop (prop (item_child (renderActions r this) "0") "props") "disabled"
       = VBool false
     ∧ renderFormErrorWarning this = VNull).
Proof.
  intros Hidle. rewrite sendForm_calls.
  rewrite <- isFormValid_true.
  unfold renderActions, renderFormErrorWarning. rewrite Hidle.
  cbv zeta. unfold item_child, element, prop, get. simplify_map_eq.
  destruct (areErrorsVisible (state this)), (isFormValid this); simpl;
    split_and!; try done; try (split; done).
Qed.

(** X14. After [sendForm()], the warning is rendered exactly when nothing
    was saved, and so is the Save button disabled (while no save is in
    flight). *)
Theorem warning_after_sendForm this :
  (renderFormErrorWarning (instance_after ext this (sendForm this)) ≠ VNull
   ↔ ¬ saves (calls_during ext this (sendForm this)))
  ∧ (strict_equals (apiStatus (props this)) (API_STATUS_SAVING r) = false →
     (prop (prop (item_child
                    (renderActions r (instance_after ext this (sendForm this)))
                    "0") "props") "disabled" = VBool true
      ↔ ¬ saves (calls_during ext this (sendForm this)))).
Proof.
  assert (Hsaves : saves (calls_during ext this (sendForm this))
                   ↔ isFormValid this = true).
  { rewrite sendForm_calls. unfold saves.
    destruct (isFormValid this); split; try done.
    - intros _. eexists _, _. by apply list_elem_of_singleton.
    - intros (n & rest & Hin). by apply elem_of_nil in Hin. }
  rewrite Hsaves.
  assert (Hvisible : areErrorsVisible (state (instance_after ext this (sendForm this)))
                     = negb (isFormValid this)).
  { unfold instance_after. fold (after ext this (sendForm this)).
    by rewrite sendForm_after. }
  assert (Hprops : props (instance_after ext this (sendForm this)) = props this).
  { unfold instance_after, handle. by destruct (flush _ _ _) as [[? ?] ?]. }
  split.
  - unfold renderFormErrorWarning.
    rewrite Hvisible, isFormValid_after_sendForm.
    destruct (isFormValid this); simpl; split; done.
  - intros Hidle. unfold renderActions.
    rewrite Hprops, Hidle, Hvisible, isFormValid_after_sendForm.
    cbv zeta. unfold item_child, element, prop, get. simplify_map_eq.
    destruct (isFormValid this); simpl; split; done.
Qed.

(** X15. While a save is in flight, neither action carries an [onClick]
    (the spinner and the text stand in for the buttons) and the overlay is
    rendered; while none is, the second action is the Cancel button and no
    overlay is rendered. *)
Theorem actions_while_saving this :
  (strict_equals (apiStatus (props this)) (API_STATUS_SAVING r) = true →
     (∀ i, prop (prop (item_child (renderActions r this) i) "props") "onClick"
           = VUndefined)
     ∧ prop (renderLoading r this) "type" = VStr (str "EuiOverlayMask"))
  ∧ (strict_equals (apiStatus (props this)) (API_STATUS_SAVING r) = false →
     prop (prop (item_child (renderActions r this) "1") "props") "onClick"
       = this_cancelForm r
     ∧ renderLoading r this = VNull).
Proof.
  unfold renderActions, renderLoading. split; intros ->; cbv zeta.
  - split; [|unfold element, prop, get; by simplify_map_eq].
    intros i. unfold item_child, element, prop, get. simplify_map_eq.
    destruct (decide (i = "0")) as [->|H0]; [by simplify_map_eq|].
    destruct (decide (i = "1")) as [->|H1]; [by simplify_map_eq|].
    by simplify_map_eq.
  - split; [|done].
    unfold item_child, element, prop, get. by simplify_map_eq.
Qed.

End RenderingProperties.

(** ** The life of the sample form *)

Lemma fixture_name_is_no_advanced_setting :
  "name" ∉ field <$> advancedSettingsFields Fixture.ext.
Proof. apply (bool_decide_unpack _). vm_compute. exact I. Defined.

Lemma fixture_remoteCluster_is_no_advanced_setting :
  "remoteCluster" ∉ field <$> advancedSettingsFields Fixture.ext.
Proof. apply (bool_decide_unpack _). vm_compute. exact I. Defined.

Lemma carrying_on_edits_no_name :
  Forall (λ e, ¬ edits_name e) Scenario.carrying_on.
Proof.
  repeat apply Forall_cons_2; try apply Forall_nil_2; simpl; try tauto.
  intros [v Hv]. discriminate.
Defined.

Example scenario_tuning :
  state (run Fixture.ext (mount Fixture.ext Fixture.new_props) Scenario.tuning)
  = state Fixture.tuned.
Proof. vm_compute. done. Qed.

Lemma mounted_errors_follow_validators_witness :
  "leaderIndex" ≠ "remoteCluster"
  ∧ validator_for Fixture.ext "leaderIndex" = Some Fixture.required
  ∧ (fieldsErrors
       (state (run Fixture.ext (mount Fixture.ext Fixture.new_props)
                 Scenario.tuning)) !! "leaderIndex"
     = Fixture.required <$>
         followerIndex
           (state (run Fixture.ext (mount Fixture.ext Fixture.new_props)
                     Scenario.tuning)) !! "leaderIndex"
     ∨ ("leaderIndex" = "name"
        ∧ fieldsErrors
            (state (run Fixture.ext (mount Fixture.ext Fixture.new_props)
                      Scenario.tuning)) !! "leaderIndex"
          = Some indexAlreadyExistError)).
Proof.
  assert (Hne : "leaderIndex" ≠ "remoteCluster") by discriminate.
  assert (Hvalidator : validator_for Fixture.ext "leaderIndex"
                       = Some Fixture.required) by reflexivity.
  split_and!; try assumption.
  exact (mounted_errors_follow_validators Fixture.ext Fixture.new_props
           Scenario.tuning "leaderIndex" Fixture.required Hne Hvalidator).
Defined.

Lemma mounted_has_default_keys_witness :
  is_Some (getEmptyFollowerIndex Fixture.ext VUndefined !! "maxRetryDelay")
  ∧ is_Some
      (followerIndex
         (state (run Fixture.ext (mount Fixture.ext Fixture.edit_props)
                   Scenario.carrying_on)) !! "maxRetryDelay").
Proof.
  assert (Hdefault :
    is_Some (getEmptyFollowerIndex Fixture.ext VUndefined !! "maxRetryDelay"))
    by (eexists; reflexivity).
  split; [exact Hdefault|].
  exact (mounted_has_default_keys Fixture.ext Fixture.edit_props
           Scenario.carrying_on "maxRetryDelay" Hdefault).
Defined.

Lemma mounted_cache_holds_set_fields_witness :
  cachedAdvancedSettings
    (state (run Fixture.ext (mount Fixture.ext Fixture.new_props)
              (Scenario.tuning ++ [ToggleAdvancedSettings])))
  = Some {[ "maxRetryDelay" := VNum 500 ]}
  ∧ ({[ "maxRetryDelay" := VNum 500 ]} : obj) !! "maxRetryDelay" = Some (VNum 500)
  ∧ "maxRetryDelay" ∈ field <$> advancedSettingsFields Fixture.ext
  ∧ VNum 500 ≠ VStr [].
Proof.
  assert (Hcache :
    cachedAdvancedSettings
      (state (run Fixture.ext (mount Fixture.ext Fixture.new_props)
                (Scenario.tuning ++ [ToggleAdvancedSettings])))
    = Some {[ "maxRetryDelay" := VNum 500 ]}) by (vm_compute; reflexivity).
  assert (Hentry : ({[ "maxRetryDelay" := VNum 500 ]} : obj) !! "maxRetryDelay"
                   = Some (VNum 500)) by reflexivity.
  split_and!; try assumption.
  - exact (proj1 (mounted_cache_holds_set_fields Fixture.ext Fixture.new_props
                    (Scenario.tuning ++ [ToggleAdvancedSettings])
                    _ _ _ Hcache Hentry)).
  - exact (proj2 (mounted_cache_holds_set_fields Fixture.ext Fixture.new_props
                    (Scenario.tuning ++ [ToggleAdvancedSettings])
                    _ _ _ Hcache Hentry)).
Defined.

Lemma collision_blocks_save_witness :
  ("name" ∉ field <$> advancedSettingsFields Fixture.ext)
  ∧ (∃ index, index ∈ Fixture.taken
              ∧ get index "name" = VStr (str "orders-follower"))
  ∧ Forall (λ e, ¬ edits_name e) Scenario.carrying_on
  ∧ calls_during Fixture.ext
      (run Fixture.ext (mount Fixture.ext Fixture.new_props)
         (Scenario.filling
          ++ IndexNameChecked (VStr (str "orders-follower"))
               (Resolved Fixture.taken) :: Scenario.carrying_on))
      (sendForm
         (run Fixture.ext (mount Fixture.ext Fixture.new_props)
            (Scenario.filling
             ++ IndexNameChecked (VStr (str "orders-follower"))
                  (Resolved Fixture.taken) :: Scenario.carrying_on)))
    = [].
Proof.
  assert (Hexists : ∃ index, index ∈ Fixture.taken
                             ∧ get index "name" = VStr (str "orders-follower")).
  { eexists. split; [apply list_elem_of_here|reflexivity]. }
  split_and!;
    [exact fixture_name_is_no_advanced_setting | exact Hexists
    | exact carrying_on_edits_no_name |].
  exact (proj2 (collision_blocks_save Fixture.ext Fixture.new_props
                  Scenario.filling (str "orders-follower") Fixture.taken
                  Scenario.carrying_on
                  fixture_name_is_no_advanced_setting Hexists
                  carrying_on_edits_no_name)).
Defined.

Lemma name_edit_revalidates_witness :
  ("name" ∉ field <$> advancedSettingsFields Fixture.ext)
  ∧ fieldsErrors
      (state (step Fixture.ext
                (step Fixture.ext Fixture.named
                   (IndexNameChecked (VStr (str "orders-follower"))
                      (Resolved Fixture.taken)))
                (IndexNameChange (VStr (str "orders-copy")))))
      !! "name"
    = Some (indexNameValidator Fixture.ext (VStr (str "orders-copy"))).
Proof.
  split; [exact fixture_name_is_no_advanced_setting|].
  exact (proj1 (name_edit_revalidates Fixture.ext _ (VStr (str "orders-copy"))
                  fixture_name_is_no_advanced_setting)).
Defined.

Lemma first_show_changes_no_field_witness :
  areAdvancedSettingsVisible (state Scenario.failed) = false
  ∧ cachedAdvancedSettings (state Scenario.failed) = None
  ∧ truthy (apiError (props Scenario.failed)) = true
  ∧ after Fixture.ext Scenario.failed (toggleAdvancedSettings Scenario.failed) =
      {| isNew := isNew (state Scenario.failed);
         followerIndex := followerIndex (state Scenario.failed);
         fieldsErrors := fieldsErrors (state Scenario.failed);
         areErrorsVisible := areErrorsVisible (state Scenario.failed);
         areAdvancedSettingsVisible := true;
         isValidatingIndexName := isValidatingIndexName (state Scenario.failed);
         cachedAdvancedSettings := Some ∅ |}
  ∧ calls_during Fixture.ext Scenario.failed
      (toggleAdvancedSettings Scenario.failed)
    = [ClearApiError].
Proof.
  assert (Hhidden : areAdvancedSettingsVisible (state Scenario.failed) = false)
    by reflexivity.
  assert (Hcache : cachedAdvancedSettings (state Scenario.failed) = None)
    by reflexivity.
  assert (Hpending : truthy (apiError (props Scenario.failed)) = true)
    by reflexivity.
  split_and!.
  - exact Hhidden.
  - exact Hcache.
  - exact Hpending.
  - exact (proj1 (first_show_changes_no_field Fixture.ext Scenario.failed
                    Hhidden Hcache)).
  - exact (proj1 (proj2 (first_show_changes_no_field Fixture.ext Scenario.failed
                           Hhidden Hcache)) Hpending).
Defined.

Lemma mounted_hide_then_show_round_trip_witness :
  areAdvancedSettingsVisible
    (state (run Fixture.ext (mount Fixture.ext Fixture.new_props) Scenario.tuning))
  = true
  ∧ followerIndex
      (state (hide_then_show Fixture.ext
                (run Fixture.ext (mount Fixture.ext Fixture.new_props)
                   Scenario.tuning)))
    = followerIndex
        (state (run Fixture.ext (mount Fixture.ext Fixture.new_props)
                  Scenario.tuning))
  ∧ fieldsErrors
      (state (hide_then_show Fixture.ext
                (run Fixture.ext (mount Fixture.ext Fixture.new_props)
                   Scenario.tuning)))
    = fieldsErrors
        (state (run Fixture.ext (mount Fixture.ext Fixture.new_props)
                  Scenario.tuning)).
Proof.
  assert (Hvisible :
    areAdvancedSettingsVisible
      (state (run Fixture.ext (mount Fixture.ext Fixture.new_props)
                Scenario.tuning)) = true) by reflexivity.
  split_and!; try assumption.
  - exact (proj1 (mounted_hide_then_show_round_trip Fixture.ext Fixture.new_props
                    Scenario.tuning Hvisible)).
  - exact (proj2 (mounted_hide_then_show_round_trip Fixture.ext Fixture.new_props
                    Scenario.tuning Hvisible)
             fixture_name_is_no_advanced_setting
             fixture_remoteCluster_is_no_advanced_setting).
Defined.

Lemma onIndexNameChange_not_a_string_witness :
  (∀ s : jsstring, VNum 5 ≠ VStr s)
  ∧ truthy (VNum 5) = true
  ∧ completion_of Fixture.ext Fixture.named
      (onIndexNameChange Fixture.ext Fixture.named (VNum 5))
    = ThrewTypeError
  ∧ isValidatingIndexName
      (after Fixture.ext Fixture.named
         (onIndexNameChange Fixture.ext Fixture.named (VNum 5)))
    = isValidatingIndexName (state Fixture.named).
Proof.
  assert (Hname : ∀ s : jsstring, VNum 5 ≠ VStr s) by discriminate.
  assert (Htruthy : truthy (VNum 5) = true) by reflexivity.
  split_and!; try assumption.
  exact (proj1 (proj2 (proj2 (proj2
           (onIndexNameChange_not_a_string Fixture.ext Fixture.named
              (VNum 5) Hname))) Htruthy)).
Defined.

Lemma validateIndexName_rejected_witness :
  (truthy VUndefined = false ∨ truthy (prop VUndefined "data") = false)
  ∧ isValidatingIndexName
      (after Fixture.ext Fixture.named
         (validateIndexName Fixture.ext Fixture.named
            (VStr (str "orders-follower")) (Rejected VUndefined)))
    = isValidatingIndexName (state Fixture.named).
Proof.
  assert (Hplain : truthy VUndefined = false
                   ∨ truthy (prop VUndefined "data") = false) by (by left).
  split; [exact Hplain|].
  exact (proj2 (proj2 (proj2 (proj2
           (validateIndexName_rejected Fixture.ext Fixture.named
              (VStr (str "orders-follower")) VUndefined)))) Hplain).
Defined.

Lemma calls_have_one_origin_witness :
  SaveFollowerIndex
    (get (followerIndex (state Fixture.filled)) "name")
    (delete "name" (followerIndex (state Fixture.filled)))
    ∈ step_calls Fixture.ext Fixture.filled SendForm
  ∧ no_field_error (state Fixture.filled).
Proof.
  assert (Hcall :
    SaveFollowerIndex
      (get (followerIndex (state Fixture.filled)) "name")
      (delete "name" (followerIndex (state Fixture.filled)))
      ∈ step_calls Fixture.ext Fixture.filled SendForm).
  { simpl. rewrite sendForm_calls.
    replace (isFormValid Fixture.filled) with true by reflexivity.
    apply list_elem_of_here. }
  split; [exact Hcall|].
  exact (proj1 (proj2 (calls_have_one_origin Fixture.ext Fixture.filled
                         SendForm _ Hcall))).
Defined.

Lemma save_disabled_iff_warning_witness :
  strict_equals (apiStatus (props Fixture.fresh))
                (API_STATUS_SAVING Scenario.rendering) = false
  ∧ prop (prop (item_child
                  (renderActions Scenario.rendering
                     (instance_after Fixture.ext Fixture.fresh
                        (sendForm Fixture.fresh))) "0") "props") "disabled"
    = VBool true
  ∧ calls_during Fixture.ext
      (instance_after Fixture.ext Fixture.fresh (sendForm Fixture.fresh))
      (sendForm (instance_after Fixture.ext Fixture.fresh (sendForm Fixture.fresh)))
    = [].
Proof.
  assert (Hidle :
    strict_equals
      (apiStatus (props (instance_after Fixture.ext Fixture.fresh
                           (sendForm Fixture.fresh))))
      (API_STATUS_SAVING Scenario.rendering) = false) by reflexivity.
  assert (Hdisabled :
    prop (prop (item_child
                  (renderActions Scenario.rendering
                     (instance_after Fixture.ext Fixture.fresh
                        (sendForm Fixture.fresh))) "0") "props") "disabled"
    = VBool true) by (vm_compute; reflexivity).
  split_and!; [exact Hidle | exact Hdisabled |].
  exact (proj1 (proj2 (proj2
           (save_disabled_iff_warning Fixture.ext Scenario.rendering
              (instance_after Fixture.ext Fixture.fresh (sendForm Fixture.fresh))
              Hidle))) Hdisabled).
Defined.

Example rendering_fresh :
  renderFormErrorWarning Fixture.fresh = VNull
  ∧ renderFormErrorWarning
      (instance_after Fixture.ext Fixture.fresh (sendForm Fixture.fresh)) ≠ VNull
  ∧ renderFormErrorWarning
      (instance_after Fixture.ext Fixture.filled (sendForm Fixture.filled)) = VNull
  ∧ renderLoading Scenario.rendering Fixture.fresh = VNull.
Proof. vm_compute. done. Qed.

Lemma hidden_settings_are_saved_empty_witness :
  areAdvancedSettingsVisible (state Fixture.tuned) = true
  ∧ "maxRetryDelay" ∈ field <$> advancedSettingsFields Fixture.ext
  ∧ "maxRetryDelay" ≠ "name"
  ∧ SaveFollowerIndex
      (get (followerIndex (state (hidden Fixture.ext Fixture.tuned))) "name")
      (delete "name" (followerIndex (state (hidden Fixture.ext Fixture.tuned))))
      ∈ calls_during Fixture.ext (hidden Fixture.ext Fixture.tuned)
          (sendForm (hidden Fixture.ext Fixture.tuned))
  ∧ delete "name" (followerIndex (state (hidden Fixture.ext Fixture.tuned)))
      !! "maxRetryDelay" = Some (VStr []).
Proof.
  assert (Hvisible : areAdvancedSettingsVisible (state Fixture.tuned) = true)
    by reflexivity.
  assert (Hfield : "maxRetryDelay" ∈ field <$> advancedSettingsFields Fixture.ext)
    by (apply (bool_decide_unpack _); vm_compute; exact I).
  assert (Hname : "maxRetryDelay" ≠ "name") by discriminate.
  assert (Hsave :
    SaveFollowerIndex
      (get (followerIndex (state (hidden Fixture.ext Fixture.tuned))) "name")
      (delete "name" (followerIndex (state (hidden Fixture.ext Fixture.tuned))))
      ∈ calls_during Fixture.ext (hidden Fixture.ext Fixture.tuned)
          (sendForm (hidden Fixture.ext Fixture.tuned))).
  { rewrite sendForm_calls.
    replace (isFormValid (hidden Fixture.ext Fixture.tuned)) with true
      by reflexivity.
    apply list_elem_of_here. }
  split_and!; try assumption.
  exact (hidden_settings_are_saved_empty Fixture.ext Fixture.tuned _ _
           "maxRetryDelay" Hvisible Hfield Hname Hsave).
Defined.

Lemma errors_hidden_before_first_submit_witness :
  (SendForm ∉ Scenario.tuning)
  ∧ areErrorsVisible
      (state (run Fixture.ext (mount Fixture.ext Fixture.new_props)
                Scenario.tuning))
    = false.
Proof.
  assert (Hnone : SendForm ∉ Scenario.tuning).
  { unfold Scenario.tuning, Scenario.filling. simpl.
    repeat (apply not_elem_of_cons; split; [discriminate|]).
    apply not_elem_of_nil. }
  split; [exact Hnone|].
  exact (errors_hidden_before_first_submit Fixture.ext Fixture.new_props
           Scenario.tuning Hnone).
Defined.

Lemma warning_after_sendForm_witness :
  strict_equals (apiStatus (props Fixture.fresh))
                (API_STATUS_SAVING Scenario.rendering) = false
  ∧ ¬ saves (calls_during Fixture.ext Fixture.fresh (sendForm Fixture.fresh))
  ∧ prop (prop (item_child
                  (renderActions Scenario.rendering
                     (instance_after Fixture.ext Fixture.fresh
                        (sendForm Fixture.fresh))) "0") "props") "disabled"
    = VBool true.
Proof.
  assert (Hidle : strict_equals (apiStatus (props Fixture.fresh))
                    (API_STATUS_SAVING Scenario.rendering) = false)
    by reflexivity.
  assert (Hnone : ¬ saves (calls_during Fixture.ext Fixture.fresh
                             (sendForm Fixture.fresh))).
  { intros (name & rest & Hin). vm_compute in Hin. by apply elem_of_nil in Hin. }
  split_and!; [exact Hidle | exact Hnone |].
  exact (proj2 (proj2 (warning_after_sendForm Fixture.ext Scenario.rendering
                         Fixture.fresh) Hidle) Hnone).
Defined.

Lemma actions_while_saving_witness :
  strict_equals
    (apiStatus (props (step Fixture.ext Fixture.filled
                         (ReceiveProps Scenario.saving_props))))
    (API_STATUS_SAVING Scenario.rendering) = true
  ∧ prop (renderLoading Scenario.rendering
            (step Fixture.ext Fixture.filled (ReceiveProps Scenario.saving_props)))
         "type"
    = VStr (str "EuiOverlayMask").
Proof.
  assert (Hsaving :
    strict_equals
      (apiStatus (props (step Fixture.ext Fixture.filled
                           (ReceiveProps Scenario.saving_props))))
      (API_STATUS_SAVING Scenario.rendering) = true) by reflexivity.
  split; [exact Hsaving|].
  exact (proj2 (proj1 (actions_while_saving Scenario.rendering
                         (step Fixture.ext Fixture.filled
                            (ReceiveProps Scenario.saving_props))) Hsaving)).
Defined.
